(** * gan_utils: a shallow embedding of [gan_utils.py] and its properties

    The module under study is glue code around three libraries: PyTorch
    (tensors, random number generation, layer initialisation), NumPy
    ([np.random.randint], [np.expand_dims]) and scikit-image ([io.imread],
    [transform.resize]).  The functions of [gan_utils.py] are translated
    one by one; the library calls they make are modelled in the modules
    [F32], [Py], [Np], [Torch] and by the record [skimage].

    - Tensor and array elements are IEEE-754 values ([spec_float] of the
      standard library); tensor arithmetic is binary32, Python scalars are
      binary64.
    - A tensor is a shape, a row-major list of elements and a device.
    - Exceptions are the [Error] case of [result]; random draws are read
      from the generator state [rng], threaded through the monad [M].
    - [sigmoid] is a one-line call of [np.exp] and is left out. *)

From Stdlib Require Import ZArith List Bool Lia.
From Stdlib Require Import Floats.SpecFloat.
From stdpp Require Import base list strings gmap.

Open Scope Z_scope.

(** ** Exceptions and the error monad *)

Inductive exn :=
| IOError | IndexError | TypeError | ValueError | AttributeError | RuntimeError.

Abbreviation res A := (result A exn).

Definition res_bind {A B} (m : res A) (k : A -> res B) : res B :=
  match m with
  | Ok a => k a
  | Error e => Error e
  end.

Notation "'let*' x ':=' m 'in' k" := (res_bind m (fun x => k))
  (at level 10, x pattern, m at level 100, k at level 200).

Fixpoint res_mapM {A B} (f : A -> res B) (l : list A) : res (list B) :=
  match l with
  | [] => Ok []
  | x :: l' =>
      let* y := f x in
      let* ys := res_mapM f l' in
      Ok (y :: ys)
  end.

(** ** IEEE-754 scalars *)

(** binary32: the element type of [torch.float32] tensors. *)
Module F32.
Definition prec : Z := 24.
Definition emax : Z := 128.

Definition add := SFadd prec emax.
Definition sub := SFsub prec emax.
Definition mul := SFmul prec emax.
Definition div := SFdiv prec emax.
Definition neg := SFopp.
Definition abs := SFabs.
Definition ltb := SFltb.
Definition leb := SFleb.

(** Round-to-nearest-even conversion of an integer and of a value held
    in a wider format. *)
Definition of_Z (z : Z) : spec_float := binary_normalize prec emax z 0 false.

Definition round (x : spec_float) : spec_float :=
  match x with
  | S754_finite s m e => binary_round prec emax s m e
  | _ => x
  end.

Definition zero : spec_float := S754_zero false.
Definition one : spec_float := Eval vm_compute in of_Z 1.
Definition two : spec_float := Eval vm_compute in of_Z 2.

Definition is_nan (x : spec_float) : bool :=
  match x with S754_nan => true | _ => false end.

(** A finite binary32 value: a zero, or a canonical bounded mantissa. *)
Definition is_finite (x : spec_float) : bool :=
  match x with
  | S754_zero _ => true
  | S754_finite _ m e => bounded prec emax m e
  | _ => false
  end.

(** Neither NaN nor an infinity. *)
Definition is_real (x : spec_float) : bool :=
  match x with
  | S754_zero _ | S754_finite _ _ _ => true
  | _ => false
  end.

(** [x] lies in the closed interval [lo, hi]. *)
Definition in_range (lo hi x : spec_float) : bool := leb lo x && leb x hi.
End F32.

(** binary64: Python's [float]; Python [int] arguments of the sizes that
    occur here convert to it exactly. *)
Module Py.
Definition prec : Z := 53.
Definition emax : Z := 1024.

Definition mul := SFmul prec emax.
Definition div := SFdiv prec emax.
Definition eqb := SFeqb.
Definition of_Z (z : Z) : spec_float := binary_normalize prec emax z 0 false.

Definition zero : spec_float := S754_zero false.
Definition one : spec_float := Eval vm_compute in of_Z 1.
(** The literal [0.1]. *)
Definition tenth : spec_float := Eval vm_compute in div (of_Z 1) (of_Z 10).
(** The literal [0.02]. *)
Definition fiftieth : spec_float := Eval vm_compute in div (of_Z 1) (of_Z 50).

(** A Python number: an [int], taken to fit 64 bits as the sizes and
    labels of the module do, or a [float]. *)
Inductive number := Int (z : Z) | Float (x : spec_float).

(** [n == k] for an integer literal [k]. *)
Definition eq_int (n : number) (k : Z) : bool :=
  match n with
  | Int z => z =? k
  | Float x => eqb x (of_Z k)
  end.

(** [int(x)]: truncation towards zero; [ValueError] on NaN and
    [OverflowError] (rendered as [ValueError]) on an infinity. *)
Definition int (x : spec_float) : res Z :=
  match x with
  | S754_zero _ => Ok 0
  | S754_finite s m e =>
      let a := match e with
               | Zneg p => Z.shiftr (Zpos m) (Zpos p)
               | _ => Z.shiftl (Zpos m) e
               end in
      Ok (if s then - a else a)
  | _ => Error ValueError
  end.

(** [l[i]] on a Python list: negative indices count from the end. *)
Definition index {A} (l : list A) (i : Z) : res A :=
  let n := Z.of_nat (length l) in
  let j := if i <? 0 then i + n else i in
  if (j <? 0) || (n <=? j) then Error IndexError
  else match l !! Z.to_nat j with
       | Some x => Ok x
       | None => Error IndexError
       end.

(** [l[:k]] on a sequence of length [length l]. *)
Definition slice_to {A} (l : list A) (k : Z) : list A :=
  let n := Z.of_nat (length l) in
  let j := if k <? 0 then Z.max 0 (k + n) else Z.min k n in
  take (Z.to_nat j) l.

(** [s.find(sub)]: index of the first occurrence, or -1. *)
Definition find (s sub : string) : Z :=
  match String.index 0 sub s with
  | Some n => Z.of_nat n
  | None => -1
  end.
End Py.

(** ** Rounding *)

(** One of the two shifts of [binary_round_aux]: the mantissa [m] of
    exponent [e] is shifted right until it fits the format. *)
Definition stage1 (prec emax m e : Z) : Z * Z :=
  let n := Z.max 0 (fexp prec emax (Zdigits2 m + e) - e) in (Z.shiftr m n, e + n).

(** ** Tensors *)

Inductive device := cpu | cuda (n : nat).

#[global] Instance device_eq_dec : EqDecision device.
Proof. solve_decision. Defined.

(** A [torch.Tensor] or [numpy.ndarray]: contiguous row-major storage. *)
Record tensor := Tensor {
  shape : list nat;
  data : list spec_float;
  dev : device
}.

Module Torch.
Definition numel (s : list nat) : nat := foldr Nat.mul 1%nat s.

(** A size tuple given by the caller; a negative entry is rejected. *)
Definition dims (l : list Z) : res (list nat) :=
  res_mapM (fun z => if z <? 0 then Error RuntimeError else Ok (Z.to_nat z)) l.

Definition fill (s : list nat) (v : spec_float) (d : option device) : tensor :=
  Tensor s (replicate (numel s) v) (default cpu d).

(** The largest binary32 number, as a binary64 value. *)
Definition float32_max : spec_float :=
  Eval vm_compute in Py.of_Z ((2 ^ 24 - 1) * 2 ^ 104).

(** A float fill value is checked before it is stored as float32: a
    finite number whose magnitude is beyond the largest binary32 number
    is refused; the infinities and NaN pass. *)
Definition overflows (x : spec_float) : bool :=
  match x with
  | S754_finite _ m e => SFltb float32_max (binary_round Py.prec Py.emax false m e)
  | _ => false
  end.

(** What [torch.full] makes: the dtype follows the Python type of the
    fill value, float32 for a [float] and int64 for an [int]. *)
Inductive filled :=
| Float32 (t : tensor)
| Int64 (s : list nat) (zs : list Z) (d : device).

(** [torch.full(size, v, device=d)] *)
Definition full (size : list Z) (v : Py.number) (d : option device) : res filled :=
  let* s := dims size in
  match v with
  | Py.Float x =>
      if overflows x then Error RuntimeError
      else Ok (Float32 (fill s (F32.round x) d))
  | Py.Int z => Ok (Int64 s (replicate (numel s) z) (default cpu d))
  end.

(** [torch.ones] applied to a size tuple, with dtype float32. *)
Definition ones (size : list Z) (d : option device) : res tensor :=
  let* s := dims size in Ok (fill s F32.one d).

Definition map (f : spec_float -> spec_float) (t : tensor) : tensor :=
  Tensor (shape t) (f <$> data t) (dev t).

Definition neg : tensor -> tensor := map F32.neg.
Definition abs : tensor -> tensor := map F32.abs.

(** [t * c], [t / c] and [c - t] for a Python scalar [c]: the scalar is
    brought to the tensor's dtype. *)
Definition mul_scalar (t : tensor) (c : spec_float) : tensor :=
  map (fun x => F32.mul x (F32.round c)) t.
Definition div_scalar (t : tensor) (c : spec_float) : tensor :=
  map (fun x => F32.div x (F32.round c)) t.
Definition rsub_scalar (c : spec_float) (t : tensor) : tensor :=
  map (fun x => F32.sub (F32.round c) x) t.

(** [t.to(device)]; [device=None] leaves the tensor where it is. *)
Definition to (t : tensor) (d : option device) : tensor :=
  match d with
  | None => t
  | Some d' => Tensor (shape t) (data t) d'
  end.

(** *** Broadcasting *)

Fixpoint chunks {A} (n k : nat) (l : list A) : list (list A) :=
  match k with
  | O => []
  | S k' => take n l :: chunks n k' (drop n l)
  end.

(** Expand storage of shape [src] to shape [tgt] of the same rank: a
    dimension is kept when the sizes agree and repeated when the source
    size is 1. *)
Fixpoint expand {A} (src tgt : list nat) (d : list A) : res (list A) :=
  match src, tgt with
  | [], [] => Ok d
  | s :: src', n :: tgt' =>
      if (s =? n)%nat then
        let* parts := res_mapM (expand src' tgt') (chunks (numel src') s d) in
        Ok (concat parts)
      else if (s =? 1)%nat then
        let* part := expand src' tgt' d in
        Ok (concat (replicate n part))
      else Error RuntimeError
  | _, _ => Error RuntimeError
  end.

Definition broadcast_to (t : tensor) (tgt : list nat) : res (list spec_float) :=
  if (length tgt <? length (shape t))%nat then Error RuntimeError
  else expand (replicate (length tgt - length (shape t)) 1%nat ++ shape t) tgt (data t).

(** Shapes are aligned on the right; the arguments are reversed shapes. *)
Fixpoint broadcast_rev (a b : list nat) : res (list nat) :=
  match a, b with
  | [], _ => Ok b
  | _, [] => Ok a
  | x :: a', y :: b' =>
      let* rest := broadcast_rev a' b' in
      if (x =? y)%nat then Ok (x :: rest)
      else if (x =? 1)%nat then Ok (y :: rest)
      else if (y =? 1)%nat then Ok (x :: rest)
      else Error RuntimeError
  end.

Definition broadcast_shapes (a b : list nat) : res (list nat) :=
  let* r := broadcast_rev (reverse a) (reverse b) in Ok (reverse r).

(** A zero-dimensional CPU tensor may meet a tensor of any device. *)
Definition cpu_scalar (t : tensor) : bool :=
  bool_decide (shape t = []) && bool_decide (dev t = cpu).

Definition result_device (a b : tensor) : res device :=
  if bool_decide (dev a = dev b) then Ok (dev a)
  else if cpu_scalar b then Ok (dev a)
  else if cpu_scalar a then Ok (dev b)
  else Error RuntimeError.

Definition binop (f : spec_float -> spec_float -> spec_float) (a b : tensor) : res tensor :=
  let* d := result_device a b in
  let* s := broadcast_shapes (shape a) (shape b) in
  let* xa := broadcast_to a s in
  let* xb := broadcast_to b s in
  Ok (Tensor s (zip_with f xa xb) d).

(** [a - b] *)
Definition sub : tensor -> tensor -> res tensor := binop F32.sub.

(** In-place [self op= other]: [other] is broadcast to the shape of
    [self], which keeps its shape and device. *)
Definition inplace (f : spec_float -> spec_float -> spec_float) (self other : tensor) : res tensor :=
  if negb (bool_decide (dev self = dev other) || cpu_scalar other) then Error RuntimeError
  else
    let* xb := broadcast_to other (shape self) in
    Ok (Tensor (shape self) (zip_with f (data self) xb) (dev self)).

(** [self += other] and [self -= other] *)
Definition iadd : tensor -> tensor -> res tensor := inplace F32.add.
Definition isub : tensor -> tensor -> res tensor := inplace F32.sub.

(** The same on what [torch.full] made, for a float32 [other]: the
    float32 result cannot be stored in an int64 tensor, whatever the
    shapes are. *)
Definition inplace_filled (f : spec_float -> spec_float -> spec_float)
    (self : filled) (other : tensor) : res tensor :=
  match self with
  | Float32 t => inplace f t other
  | Int64 _ _ _ => Error RuntimeError
  end.

Definition iadd_filled : filled -> tensor -> res tensor := inplace_filled F32.add.
Definition isub_filled : filled -> tensor -> res tensor := inplace_filled F32.sub.

(** The storage of [self[i]] for an index [i] into the first dimension. *)
Definition select (self : tensor) (i : nat) : list spec_float :=
  let stride := numel (tail (shape self)) in
  take stride (drop (i * stride) (data self)).

(** [self[i,:,:,:] += other] *)
Definition iadd_select (self : tensor) (i : nat) (other : tensor) : res tensor :=
  match shape self with
  | n :: rest =>
      if (length rest <? 3)%nat || (n <=? i)%nat then Error IndexError
      else
        let stride := numel rest in
        let* upd := iadd (Tensor rest (select self i) (dev self)) other in
        Ok (Tensor (shape self)
              (take (i * stride) (data self) ++ data upd ++ drop (S i * stride) (data self))
              (dev self))
  | [] => Error IndexError
  end.

(** [t.view(b, -1)]: the free dimension is the number of elements
    divided by [b].  It cannot be inferred for [b = 0]; for [b > 0] a
    tensor without elements becomes [b] empty rows. *)
Definition view_rows (t : tensor) (b : nat) : res tensor :=
  let n := numel (shape t) in
  if (b =? 0)%nat then Error RuntimeError
  else if negb (n mod b =? 0)%nat then Error RuntimeError
  else Ok (Tensor [b; (n / b)%nat] (data t) (dev t)).

(** The order in which a reduction adds the elements of a row: a term
    over the positions of the row, with [Zero] for an accumulator that
    starts at 0.  PyTorch adds in blocks and vector lanes that depend on
    the shape, the build and the machine, so the order is a parameter of
    the reduction. *)
Inductive order := Zero | At (i : nat) | Plus (l r : order).

Fixpoint sum_in (o : order) (row : list spec_float) : spec_float :=
  match o with
  | Zero => F32.zero
  | At i => default F32.zero (row !! i)
  | Plus l r => F32.add (sum_in l row) (sum_in r row)
  end.

(** [t.mean(1)] of a matrix: each row is summed, in the order [ord b c]
    for a matrix of [b] rows and [c] columns, and divided by the row
    length (0/0 is NaN on an empty row). *)
Definition row_mean (o : order) (c : nat) (row : list spec_float) : spec_float :=
  F32.div (sum_in o row) (F32.of_Z (Z.of_nat c)).

Definition mean_dim1 (ord : nat -> nat -> order) (t : tensor) : res tensor :=
  match shape t with
  | [b; c] => Ok (Tensor [b] (row_mean (ord b c) c <$> chunks c b (data t)) (dev t))
  | _ => Error IndexError
  end.

(** [torch.clamp(t, lo, hi)]: min(max(x, lo), hi), NaN is propagated. *)
Definition clamp1 (lo hi x : spec_float) : spec_float :=
  if F32.is_nan x then x
  else
    let y := if F32.ltb x lo then lo else x in
    if F32.ltb hi y then hi else y.

Definition clamp (t : tensor) (lo hi : spec_float) : tensor :=
  map (clamp1 (F32.round lo) (F32.round hi)) t.

(** [label[idx]] and [label[idx] = src] for a vector and a list of
    positions. *)
Definition gather (t : tensor) (idx : list nat) : res tensor :=
  let* xs := res_mapM (fun j => match data t !! j with
                                | Some x => Ok x
                                | None => Error IndexError
                                end) idx in
  Ok (Tensor [length idx] xs (dev t)).

Definition scatter (t : tensor) (idx : list nat) (src : tensor) : tensor :=
  Tensor (shape t)
    (fold_left (fun acc jx => <[jx.1 := jx.2]> acc) (zip idx (data src)) (data t))
    (dev t).
End Torch.

Module Np.
(** [a.astype('float32')] *)
Definition astype_float32 (a : tensor) : tensor := Torch.map F32.round a.

(** [np.expand_dims(a, axis=-1)] *)
Definition expand_dims_last (a : tensor) : tensor :=
  Tensor (shape a ++ [1%nat]) (data a) (dev a).
End Np.

(** ** Random number generation *)

(** The state of the two generators the code draws from: PyTorch's default
    generator (normal and uniform variates, permutations) and NumPy's
    global one (integers).  A generator is the stream of values it is going
    to produce and a position in it.  [torch_normal] and [torch_uniform]
    produce binary32 values; [torch_perm p n] is a permutation of
    [0 .. n-1]. *)
Record rng := Rng {
  torch_normal : nat -> spec_float;
  torch_uniform : nat -> spec_float;
  torch_perm : nat -> nat -> list nat;
  torch_pos : nat;
  numpy_int : nat -> Z;
  numpy_pos : nat
}.

Definition torch_advance (n : nat) (r : rng) : rng :=
  Rng (torch_normal r) (torch_uniform r) (torch_perm r) (torch_pos r + n)%nat
      (numpy_int r) (numpy_pos r).

Definition numpy_advance (r : rng) : rng :=
  Rng (torch_normal r) (torch_uniform r) (torch_perm r) (torch_pos r)
      (numpy_int r) (S (numpy_pos r)).

(** Computations that draw random numbers and may raise. *)
Definition M (A : Type) : Type := rng -> res (A * rng).

Definition M_ret {A} (a : A) : M A := fun r => Ok (a, r).

Definition M_bind {A B} (m : M A) (k : A -> M B) : M B :=
  fun r => match m r with
           | Ok (a, r') => k a r'
           | Error e => Error e
           end.

Definition M_lift {A} (m : res A) : M A :=
  fun r => match m with
           | Ok a => Ok (a, r)
           | Error e => Error e
           end.

Notation "'let!' x ':=' m 'in' k" := (M_bind m (fun x => k))
  (at level 10, x pattern, m at level 100, k at level 200).

Fixpoint M_mapM {A B} (f : A -> M B) (l : list A) : M (list B) :=
  match l with
  | [] => M_ret []
  | x :: l' =>
      let! y := f x in
      let! ys := M_mapM f l' in
      M_ret (y :: ys)
  end.

(** [for x in l: acc = body(x, acc)] *)
Fixpoint M_for {A S} (l : list A) (body : A -> S -> M S) (acc : S) : M S :=
  match l with
  | [] => M_ret acc
  | x :: l' =>
      let! acc' := body x acc in
      M_for l' body acc'
  end.

Module TorchRandom.
Definition draw (stream : rng -> nat -> spec_float) (s : list nat)
    (d : option device) : M tensor :=
  fun r =>
    let n := Torch.numel s in
    Ok (Tensor s (stream r <$> seq (torch_pos r) n) (default cpu d),
        torch_advance n r).

(** [torch.randn(size, device=d)] and [torch.rand(size, device=d)] *)
Definition randn (size : list Z) (d : option device) : M tensor :=
  let! s := M_lift (Torch.dims size) in draw torch_normal s d.
Definition rand (size : list Z) (d : option device) : M tensor :=
  let! s := M_lift (Torch.dims size) in draw torch_uniform s d.

(** [torch.randperm(n)] *)
Definition randperm (n : nat) : M (list nat) :=
  fun r => Ok (torch_perm r (torch_pos r) n, torch_advance 1 r).

(** [nn.init.normal_(t, mean, std)]: every element is replaced by a
    normal variate scaled by [std] and shifted by [mean]. *)
Definition normal_ (t : tensor) (mean std : spec_float) : M tensor :=
  let! z := draw torch_normal (shape t) (Some (dev t)) in
  M_ret (Torch.map (fun x => F32.add (F32.mul x (F32.round std)) (F32.round mean)) z).

(** [nn.init.constant_(t, v)] *)
Definition constant_ (t : tensor) (v : spec_float) : tensor :=
  Torch.fill (shape t) (F32.round v) (Some (dev t)).
End TorchRandom.

Module NpRandom.
(** [np.random.randint(high)]: an integer of [0 .. high-1]. *)
Definition randint (high : Z) : M Z :=
  fun r =>
    if high <=? 0 then Error ValueError
    else Ok (numpy_int r (numpy_pos r) mod high, numpy_advance r).
End NpRandom.

(** ** scikit-image and the file system *)

(** [imread path] is the array the image plugin decodes from [path] (an
    [Error] when the file cannot be read), [rgb2gray] the colour to
    grey-scale conversion and [resize a rows cols] is
    [transform.resize(a, (rows, cols))]. *)
Record skimage := Skimage {
  imread : string -> res tensor;
  rgb2gray : tensor -> tensor;
  resize : tensor -> Z -> Z -> res tensor
}.

(** [io.imread(path, as_gray=True)]: only an array of more than two
    dimensions is converted. *)
Definition imread_as_gray (io : skimage) (path : string) : res tensor :=
  let* img := imread io path in
  Ok (if (2 <? length (shape img))%nat then rgb2gray io img else img).

(** ** class flower_dataset *)

Module flower_dataset.
(** The attributes of an instance.  [image_paths] and [mask_paths] are
    only assigned in lazy mode, [image] and [mask] only in eager mode;
    an attribute that is not assigned is the empty list here and is not
    read on that path. *)
Record t := Build {
  len : Z;
  transform : option (tensor -> tensor);
  mask_transform : option (tensor -> tensor);
  in_memory : bool;
  mask_sizes : option (list Z);
  image_paths : list string;
  mask_paths : list (option string);
  image : list tensor;
  mask : list (list tensor)
}.

Definition set_len (self : t) (n : Z) : t :=
  Build n (transform self) (mask_transform self) (in_memory self) (mask_sizes self)
        (image_paths self) (mask_paths self) (image self) (mask self).

Definition image_append (self : t) (x : tensor) : t :=
  Build (len self) (transform self) (mask_transform self) (in_memory self) (mask_sizes self)
        (image_paths self) (mask_paths self) (image self ++ [x]) (mask self).

Definition mask_append (self : t) (x : list tensor) : t :=
  Build (len self) (transform self) (mask_transform self) (in_memory self) (mask_sizes self)
        (image_paths self) (mask_paths self) (image self) (mask self ++ [x]).

Definition apply (f : option (tensor -> tensor)) (x : tensor) : tensor :=
  match f with
  | Some g => g x
  | None => x
  end.

(** Iterating over [self.mask_sizes]; [None] is not iterable. *)
Definition for_sizes {A} (self : t) (f : Z -> res A) : res (list A) :=
  match mask_sizes self with
  | Some sizes => res_mapM f sizes
  | None => Error TypeError
  end.

Definition get_empty_masks (self : t) : res (list tensor) :=
  for_sizes self (fun size =>
    let* o := Torch.ones [1; size; size] None in Ok (Torch.neg o)).

Definition get_mask (io : skimage) (self : t) (mask_ : tensor) (size : option Z) : res tensor :=
  let mask := mask_ in
  let* mask := match size with
               | Some n => let* r := resize io mask n n in Ok (Np.astype_float32 r)
               | None => Ok mask
               end in
  Ok (match mask_transform self with
      | Some f => f (Np.expand_dims_last mask)
      | None => mask
      end).

(** The mask list of the image at index [i] in eager mode (the branch
    on [mask_paths] inside the loop of [__init__]). *)
Definition eager_masks (io : skimage) (mask_paths : option (list (option string)))
    (self : t) (i : nat) : res (list tensor) :=
  match mask_paths with
  | None => get_empty_masks self
  | Some paths' =>
      let* p := Py.index paths' (Z.of_nat i) in
      let* mask := match p with
                   | Some p' => imread_as_gray io p'
                   | None => Error IOError
                   end in
      for_sizes self (fun size => get_mask io self mask (Some size))
  end.

(** The loop of [__init__] over [enumerate(image_paths)], from index [i]
    on. *)
Fixpoint load (io : skimage) (mask_paths : option (list (option string)))
    (i : nat) (paths : list string) (self : t) : res t :=
  match paths with
  | [] => Ok self
  | path :: rest =>
      let* image := imread io path in
      if negb (length (shape image) =? 3)%nat then
        load io mask_paths (S i) rest (set_len self (len self - 1))
      else
        let image := apply (transform self) image in
        let self := image_append self image in
        let* masks := eager_masks io mask_paths self i in
        load io mask_paths (S i) rest (mask_append self masks)
  end.

Definition __init__ (io : skimage) (image_paths : list string)
    (mask_paths : option (list (option string))) (mask_sizes : option (list Z))
    (transform mask_transform : option (tensor -> tensor)) (in_memory : bool) : res t :=
  let n := Z.of_nat (length image_paths) in
  if negb in_memory then
    Ok (Build n transform mask_transform in_memory mask_sizes image_paths
          (match mask_paths with
           | None => replicate (Z.to_nat n) None
           | Some paths' => paths'
           end) [] [])
  else
    load io mask_paths 0 image_paths
      (Build n transform mask_transform in_memory mask_sizes [] [] [] []).

Definition __len__ (self : t) : Z := len self.

(** The mask list computed by a lazy lookup from the mask path. *)
Definition lazy_masks (io : skimage) (self : t) (mask_path : option string)
    : res (list tensor) :=
  match mask_path with
  | None => get_empty_masks self
  | Some p =>
      let* mask := imread io p in
      for_sizes self (fun size => get_mask io self mask (Some size))
  end.

Definition __getitem__ (io : skimage) (self : t) (idx : Z) : res (tensor * list tensor) :=
  if in_memory self then
    let* image := Py.index (image self) idx in
    let* masks := Py.index (mask self) idx in
    Ok (image, masks)
  else
    let* image_path := Py.index (image_paths self) idx in
    let* image := imread io image_path in
    let image := apply (transform self) image in
    let* mask_path := Py.index (mask_paths self) idx in
    let* masks := lazy_masks io self mask_path in
    Ok (image, masks).

(** *** Vocabulary of the properties *)

(** The test of the loop: the decoded array has three dimensions. *)
Definition has_three_dims (io : skimage) (path : string) : bool :=
  match imread io path with
  | Ok a => (length (shape a) =? 3)%nat
  | Error _ => false
  end.

(** The words of the specification: the decoded image has exactly three
    channels.  scikit-image returns rows x columns for a single-channel
    image and rows x columns x channels otherwise. *)
Definition channels (a : tensor) : option nat :=
  match shape a with
  | [_; _] => Some 1%nat
  | [_; _; c] => Some c
  | _ => None
  end.

Definition has_three_channels (io : skimage) (path : string) : bool :=
  match imread io path with
  | Ok a => bool_decide (channels a = Some 3%nat)
  | Error _ => false
  end.

(** The attributes the loop of [__init__] never assigns. *)
Definition same_config (a b : t) : Prop :=
  transform a = transform b /\ mask_transform a = mask_transform b /\
  in_memory a = in_memory b /\ mask_sizes a = mask_sizes b /\
  image_paths a = image_paths b /\ mask_paths a = mask_paths b.

(** The sentinel mask of a resolution: a single channel filled with -1. *)
Definition empty_mask (size : nat) : tensor :=
  Tensor [1%nat; size; size] (replicate (size * size) (F32.neg F32.one)) cpu.
End flower_dataset.

(** ** weights_init *)

(** A layer object: the name of its class and its parameter tensors
    ([m.weight.data], [m.bias.data], ...) by attribute name.  A parameter
    that is missing or [None] has no entry. *)
Record layer := Layer {
  class_name : string;
  params : gmap string tensor
}.

Definition set_param (m : layer) (name : string) (v : tensor) : layer :=
  Layer (class_name m) (<[name := v]> (params m)).

(** The call mutates [m] in place: the result is the layer and the
    generator as the call leaves them, and how the call ended. *)
Definition weights_init (m : layer) (r : rng) : layer * rng * res unit :=
  let classname := class_name m in
  if negb (Py.find classname "Conv" =? -1) then
    match params m !! "weight" with
    | None => (m, r, Error AttributeError)
    | Some w =>
        match TorchRandom.normal_ w Py.zero Py.fiftieth r with
        | Ok (w', r') => (set_param m "weight" w', r', Ok tt)
        | Error e => (m, r, Error e)
        end
    end
  else if negb (Py.find classname "BatchNorm" =? -1) then
    match params m !! "weight" with
    | None => (m, r, Error AttributeError)
    | Some w =>
        match TorchRandom.normal_ w Py.one Py.fiftieth r with
        | Ok (w', r') =>
            let m := set_param m "weight" w' in
            match params m !! "bias" with
            | None => (m, r', Error AttributeError)
            | Some b => (set_param m "bias" (TorchRandom.constant_ b Py.zero), r', Ok tt)
            end
        | Error e => (m, r, Error e)
        end
    end
  else (m, r, Ok tt).

(** ** sample_mask *)

(** The list comprehension that creates the noise tensors. *)
Definition noise_masks (batch_size : Z) (sizes : list Z) (noise_level : spec_float)
    (device : option device) : M (list tensor) :=
  M_mapM (fun size =>
            let! z := TorchRandom.randn [batch_size; 1; size; size] device in
            M_ret (Torch.mul_scalar z noise_level))
         sizes.

(** [for k, mask in enumerate(masks): mask[i,:,:,:] += realdata[n][1][k].to(device)],
    from index [k] on.  The masks of [realdata] are tensors here, as
    [get_empty_masks] and a [mask_transform] that ends in a tensor give
    them; a NumPy array has no [to]. *)
Fixpoint add_example (io : skimage) (realdata : flower_dataset.t) (device : option device)
    (i : nat) (n : Z) (k : nat) (masks : list tensor) : res (list tensor) :=
  match masks with
  | [] => Ok []
  | mask :: rest =>
      let* item := flower_dataset.__getitem__ io realdata n in
      let* real := Py.index item.2 (Z.of_nat k) in
      let* mask' := Torch.iadd_select mask i (Torch.to real device) in
      let* rest' := add_example io realdata device i n (S k) rest in
      Ok (mask' :: rest')
  end.

Definition sample_mask (io : skimage) (batch_size : Z) (sizes : list Z)
    (realdata : flower_dataset.t) (noise_level : spec_float) (device : option device)
    : M (list tensor) :=
  let! masks := noise_masks batch_size sizes noise_level device in
  M_for (seq 0 (Z.to_nat batch_size))
    (fun i masks =>
       let! n := NpRandom.randint (flower_dataset.__len__ realdata) in
       M_lift (add_example io realdata device i n 0 masks))
    masks.

(** ** mask_pair_to_label *)

Definition mask_pair_to_label (ord : nat -> nat -> Torch.order)
    (mask real_mask : list tensor) (device : option device) : res tensor :=
  let* mask1 := Py.index mask (-1) in
  let* mask2 := Py.index real_mask (-1) in
  let* b_size := Py.index (shape mask1) 0 in
  let* last := Py.index (shape mask1) (-1) in
  let mask_size := (last ^ 2)%nat in
  let label := Torch.fill [b_size] F32.one device in
  let* diff := Torch.sub mask1 mask2 in
  let* rows := Torch.view_rows (Torch.div_scalar (Torch.abs diff) (Py.of_Z 2)) b_size in
  let* mean := Torch.mean_dim1 ord rows in
  Torch.sub label mean.

(** ** get_label *)

(** [real] is an [int] or a [float]; [soft] and [noise_level] are
    floats. *)
Definition get_label (size : Z) (real : Py.number) (soft : spec_float) (noise : bool)
    (noise_level : spec_float) (device : option device) : M tensor :=
  let! label := M_lift (Torch.full [size] real device) in
  let! u := TorchRandom.rand [size] device in
  let! label :=
    M_lift (if Py.eq_int real 1
            then Torch.isub_filled label (Torch.mul_scalar u soft)
            else Torch.iadd_filled label (Torch.mul_scalar u soft)) in
  if noise then
    let! size0 := M_lift (Py.index (shape label) 0) in
    let! perm := TorchRandom.randperm size0 in
    let! count := M_lift (Py.int (Py.mul (Py.of_Z (Z.of_nat size0)) noise_level)) in
    let idx := Py.slice_to perm count in
    let! old := M_lift (Torch.gather label idx) in
    M_ret (Torch.scatter label idx (Torch.rsub_scalar Py.one old))
  else M_ret label.

(** ** noise_input *)

Definition noise_input (data : tensor) (noise_level : spec_float)
    (device : option device) (clip : bool) : M tensor :=
  if Py.eqb noise_level Py.zero then M_ret (Torch.to data device)
  else
    let! z := TorchRandom.draw torch_normal (shape data) device in
    let noise_data := Torch.mul_scalar z noise_level in
    let! noise_data := M_lift (Torch.iadd noise_data (Torch.to data device)) in
    let noise_data :=
      if clip then Torch.clamp noise_data (Py.of_Z (-1)) (Py.of_Z 1) else noise_data in
    M_ret noise_data.

(** ** Contracts of the libraries *)


(** [torch.randn] draws finite numbers. *)
Definition normal_finite (r : rng) : Prop :=
  forall i, F32.is_finite (torch_normal r i) = true.

(** The storage of a tensor holds one element per index. *)
Definition well_formed (t : tensor) : Prop := length (data t) = Torch.numel (shape t).

(** ** Concrete inputs *)

Module Examples.
(** An array of the given shape, every element 1. *)
Definition pixels (s : list nat) : tensor :=
  Tensor s (replicate (Torch.numel s) F32.one) cpu.

(** A directory with a grey-scale, an RGB and an RGBA image, each of
    two rows and two columns. *)
Definition files : skimage :=
  Skimage
    (fun path =>
       if String.eqb path "gray.png" then Ok (pixels [2; 2]%nat)
       else if String.eqb path "rgb.png" then Ok (pixels [2; 2; 3]%nat)
       else if String.eqb path "rgba.png" then Ok (pixels [2; 2; 4]%nat)
       else Error IOError)
    (fun a => pixels (take 2 (shape a)))
    (fun a rows cols => Ok (pixels [Z.to_nat rows; Z.to_nat cols])).

(** The same directory with a further image. *)
Definition other_files : skimage :=
  Skimage
    (fun path =>
       if String.eqb path "missing.png" then Ok (pixels [3; 3; 3]%nat)
       else imread files path)
    (rgb2gray files) (resize files).

(** Adding from the first element to the last, for every matrix. *)
Fixpoint left_to_right_row (c : nat) : Torch.order :=
  match c with
  | O => Torch.Zero
  | S c' => Torch.Plus (left_to_right_row c') (Torch.At c')
  end.

Definition left_to_right (b c : nat) : Torch.order := left_to_right_row c.

(** A generator state that honours the contracts of [torch.rand] and
    [torch.randn]. *)
Definition generator : rng :=
  Rng (fun i => if Nat.even i then F32.one else F32.neg F32.one)
      (fun i => if Nat.even i then S754_finite false 8388608 (-24) else F32.zero)
      (fun _ n => seq 0 n) 0
      (fun i => Z.of_nat i * 7 + 3) 0.

(** The eager dataset of two RGB images with empty masks of sizes 1 and
    2. *)
Definition dataset : flower_dataset.t :=
  Eval vm_compute in
    match flower_dataset.__init__ files ["rgb.png"; "rgb.png"] None (Some [1; 2])
            None None true with
    | Ok ds => ds
    | Error _ => flower_dataset.Build 0 None None true None [] [] [] []
    end.

(** The eager dataset of no image at all. *)
Definition empty_dataset : flower_dataset.t :=
  flower_dataset.Build 0 None None true (Some [4; 8]) [] [] [] [].

(** Three layers: a linear, a batch-normalisation and a convolution
    layer. *)
Definition linear : layer :=
  Layer "Linear" (<["weight" := pixels [2; 3]%nat]> (<["bias" := pixels [2]%nat]> ∅)).

Definition batchnorm : layer :=
  Layer "BatchNorm2d"
    (<["weight" := pixels [2]%nat]>
       (<["bias" := pixels [2]%nat]> (<["running_mean" := pixels [2]%nat]> ∅))).

(** A batch-normalisation layer created with a weight and no bias. *)
Definition batchnorm_no_bias : layer :=
  Layer "BatchNorm1d" (<["weight" := pixels [2]%nat]> ∅).

Definition conv : layer :=
  Layer "Conv2d" (<["weight" := pixels [2; 1; 3; 3]%nat]> (<["bias" := pixels [2]%nat]> ∅)).
End Examples.

(** * Properties *)

(** ** The error monad and Python indexing *)

Lemma res_bind_Ok {A B} (m : res A) (k : A -> res B) (b : B) :
  res_bind m k = Ok b -> exists a, m = Ok a /\ k a = Ok b.
Proof. destruct m as [a|e]; simpl; [eauto | discriminate]. Qed.

(** Invert every successful bind among the hypotheses. *)
Ltac inv_res :=
  repeat match goal with
         | H : res_bind _ _ = Ok _ |- _ =>
             let a := fresh "a" in
             let Ha := fresh "Ha" in
             apply res_bind_Ok in H; destruct H as (a & Ha & H)
         | H : Ok _ = Ok _ |- _ => injection H as H
         | H : Error _ = Ok _ |- _ => discriminate H
         end.

Lemma res_mapM_length {A B} (f : A -> res B) (l : list A) (l' : list B) :
  res_mapM f l = Ok l' -> length l' = length l.
Proof.
  revert l'; induction l as [|x l IH]; intros l' H; simpl in H.
  - inv_res. by subst.
  - inv_res. subst. simpl. f_equal. by apply IH.
Qed.

Lemma res_mapM_lookup {A B} (f : A -> res B) (l : list A) (l' : list B) (i : nat) (x : A) :
  res_mapM f l = Ok l' -> l !! i = Some x ->
  exists y, f x = Ok y /\ l' !! i = Some y.
Proof.
  revert l' i; induction l as [|x0 l IH]; intros l' i H Hi; [done|].
  simpl in H. inv_res. subst. destruct i as [|i]; simpl in *.
  - injection Hi as ->. eauto.
  - eauto.
Qed.

Lemma res_mapM_id {A} (f : A -> res A) (l : list A) :
  Forall (fun x => f x = Ok x) l -> res_mapM f l = Ok l.
Proof.
  induction 1 as [|x l Hx _ IH]; simpl; [done|]. by rewrite Hx, IH.
Qed.

Lemma index_nat {A} (l : list A) (i : Z) :
  0 <= i ->
  Py.index l i = match l !! Z.to_nat i with
                 | Some x => Ok x
                 | None => Error IndexError
                 end.
Proof.
  intros Hi. unfold Py.index.
  destruct (Z.ltb_spec i 0) as [|_]; [lia|].
  destruct (Z.ltb_spec i 0) as [|_]; [lia|]. simpl.
  destruct (Z.leb_spec (Z.of_nat (length l)) i) as [Hge|]; [|done].
  rewrite lookup_ge_None_2; [done | lia].
Qed.

Lemma index_in_range {A} (l : list A) (i : Z) :
  0 <= i < Z.of_nat (length l) -> exists x, Py.index l i = Ok x /\ l !! Z.to_nat i = Some x.
Proof.
  intros Hi. rewrite index_nat by lia.
  destruct (lookup_lt_is_Some_2 l (Z.to_nat i)) as [x Hx]; [lia|].
  rewrite Hx. eauto.
Qed.

Lemma index_last {A} (l : list A) (x : A) : Py.index (l ++ [x]) (-1) = Ok x.
Proof.
  unfold Py.index. rewrite length_app. simpl.
  replace (-1 + Z.of_nat (length l + 1)) with (Z.of_nat (length l)) by lia.
  destruct (Z.ltb_spec (Z.of_nat (length l)) 0); [lia|].
  destruct (Z.leb_spec (Z.of_nat (length l + 1)) (Z.of_nat (length l))); [lia|].
  simpl. rewrite Nat2Z.id.
  by rewrite lookup_app_r, Nat.sub_diag.
Qed.

(** ** flower_dataset *)

Module flower_dataset_facts.
Import flower_dataset.

Lemma eager_masks_config io mp (a b : t) i :
  mask_sizes a = mask_sizes b -> mask_transform a = mask_transform b ->
  eager_masks io mp a i = eager_masks io mp b i.
Proof.
  destruct a, b; simpl; intros -> ->. reflexivity.
Qed.

(** What the loop does to the instance: nothing but [len], [image] and
    [mask] changes; an image and a mask list are appended for every
    path that decodes to a three-dimensional array, and [len] goes down
    by one for every other path. *)
Lemma load_inv io mp paths : forall i self self',
  load io mp i paths self = Ok self' ->
  same_config self self' /\
  exists kept : list (tensor * list tensor),
    image self' = image self ++ kept.*1 /\
    mask self' = mask self ++ kept.*2 /\
    length kept = length (List.filter (has_three_dims io) paths) /\
    len self' = len self - Z.of_nat (length paths) + Z.of_nat (length kept).
Proof.
  induction paths as [|p paths IH]; intros i self self' H; simpl in H.
  - injection H as <-. split; [by repeat split|].
    exists []. simpl. rewrite !app_nil_r. repeat split; lia.
  - apply res_bind_Ok in H as (a & Ha & H).
    assert (Hp : has_three_dims io p = (length (shape a) =? 3)%nat)
      by (unfold has_three_dims; by rewrite Ha).
    cbn [List.filter]. rewrite Hp.
    destruct (length (shape a) =? 3)%nat eqn:E; simpl in H.
    + apply res_bind_Ok in H as (ms & Hms & H).
      apply IH in H as (Hc & kept & Himg & Hmask & Hlen & Hl).
      split.
      { destruct Hc as (?&?&?&?&?&?). by repeat split. }
      exists ((apply (transform self) a, ms) :: kept). simpl in *.
      rewrite Himg, Hmask, <- !app_assoc. simpl.
      repeat split; [by f_equal | lia].
    + apply IH in H as (Hc & kept & Himg & Hmask & Hlen & Hl).
      split.
      { destruct Hc as (?&?&?&?&?&?). by repeat split. }
      exists kept. simpl in *.
      repeat split; [done.. | lia].
Qed.

(** Where the sample of path number [j] ends up when no earlier path was
    skipped. *)
Lemma load_lookup io mp paths : forall i self self' j p,
  load io mp i paths self = Ok self' ->
  paths !! j = Some p ->
  (forall j' p', (j' <= j)%nat -> paths !! j' = Some p' -> has_three_dims io p' = true) ->
  exists a ms,
    imread io p = Ok a /\
    eager_masks io mp self (i + j) = Ok ms /\
    image self' !! (length (image self) + j)%nat = Some (apply (transform self) a) /\
    mask self' !! (length (mask self) + j)%nat = Some ms.
Proof.
  induction paths as [|p0 paths IH]; intros i self self' j p H Hj Hall; [done|].
  simpl in H. apply res_bind_Ok in H as (a & Ha & H).
  assert (H0 : has_three_dims io p0 = true) by (apply (Hall 0%nat); [lia | done]).
  unfold has_three_dims in H0. rewrite Ha in H0. rewrite H0 in H. simpl in H.
  apply res_bind_Ok in H as (ms & Hms & H).
  destruct j as [|j]; simpl in Hj.
  - injection Hj as <-.
    apply load_inv in H as (_ & kept & Himg & Hmask & _).
    exists a, ms. rewrite Nat.add_0_r. simpl in *.
    repeat split; [done | | |].
    + rewrite <- Hms. by apply eager_masks_config.
    + rewrite Himg, <- app_assoc, lookup_app_r by lia.
      by rewrite Nat.add_0_r, Nat.sub_diag.
    + rewrite Hmask, <- app_assoc, lookup_app_r by lia.
      by rewrite Nat.add_0_r, Nat.sub_diag.
  - eapply IH in H as (a' & ms' & Ha' & Hms' & Hi' & Hm'); [|done|].
    2:{ intros j' p' Hle Hp'. apply (Hall (S j')); [lia | done]. }
    exists a', ms'. simpl in *. rewrite length_app in Hi', Hm'. simpl in *.
    repeat split; [done | | |].
    + rewrite <- Hms'. replace (i + S j)%nat with (S (i + j)) by lia.
      by apply eager_masks_config.
    + rewrite <- Hi'. f_equal. lia.
    + rewrite <- Hm'. f_equal. lia.
Qed.

Lemma channels_three_dims a :
  channels a = Some 3%nat -> (length (shape a) =? 3)%nat = true.
Proof.
  unfold channels. destruct (shape a) as [|? [|? [|? [|? ?]]]]; simpl; congruence.
Qed.

(** One round of the loop, for a path that is kept and for one that is
    skipped. *)
Lemma load_keep io mp i p rest self a :
  imread io p = Ok a -> (length (shape a) =? 3)%nat = true ->
  load io mp i (p :: rest) self =
    let self' := image_append self (apply (transform self) a) in
    let* masks := eager_masks io mp self' i in
    load io mp (S i) rest (mask_append self' masks).
Proof. intros H E. simpl. rewrite H. simpl. by rewrite E. Qed.

Lemma load_skip io mp i p rest self a :
  imread io p = Ok a -> (length (shape a) =? 3)%nat = false ->
  load io mp i (p :: rest) self = load io mp (S i) rest (set_len self (len self - 1)).
Proof. intros H E. simpl. rewrite H. simpl. by rewrite E. Qed.

Lemma get_empty_masks_8_16 self :
  mask_sizes self = Some [8; 16] ->
  get_empty_masks self = Ok [empty_mask 8; empty_mask 16].
Proof. unfold get_empty_masks, for_sizes. intros ->. reflexivity. Qed.

Lemma res_mapM_total {A B} (f : A -> res B) (l : list A) :
  Forall (fun x => exists y, f x = Ok y) l -> exists l', res_mapM f l = Ok l'.
Proof.
  induction 1 as [|x l [y Hy] _ [l' IH]]; simpl; [eauto|]. rewrite Hy, IH. simpl. eauto.
Qed.

Lemma get_empty_masks_returns self sizes :
  mask_sizes self = Some sizes -> Forall (fun z => 0 <= z) sizes ->
  exists masks, get_empty_masks self = Ok masks.
Proof.
  intros Hs Hsizes. unfold get_empty_masks, for_sizes. rewrite Hs.
  apply res_mapM_total. eapply Forall_impl; [done|]. intros size Hsize. cbn beta in Hsize |- *.
  unfold Torch.ones, Torch.dims. simpl.
  destruct (Z.ltb_spec size 0); [lia|]. simpl. eauto.
Qed.

(** Without mask paths the eager loader raises nothing as long as every
    path can be decoded, whatever the dimensions of the decoded arrays:
    an image that is skipped is skipped silently. *)
Lemma load_returns io sizes paths : forall i self,
  Forall (fun p => exists a, imread io p = Ok a) paths ->
  mask_sizes self = Some sizes -> Forall (fun z => 0 <= z) sizes ->
  exists self', load io None i paths self = Ok self'.
Proof.
  induction paths as [|p paths IH]; intros i self Hp Hs Hsizes; simpl; [eauto|].
  apply Forall_cons_1 in Hp as [[a Ha] Hp]. rewrite Ha. simpl.
  destruct (negb _).
  - by apply IH.
  - destruct (get_empty_masks_returns (image_append self (apply (transform self) a)) sizes)
      as [masks Hm]; [done..|].
    unfold eager_masks. rewrite Hm. simpl. by apply IH.
Qed.
End flower_dataset_facts.

Module flower_dataset_claims.
Import flower_dataset flower_dataset_facts.

Lemma init_eager io paths mp sizes tr mtr ds :
  __init__ io paths mp sizes tr mtr true = Ok ds ->
  in_memory ds = true /\ transform ds = tr /\ mask_transform ds = mtr /\
  mask_sizes ds = sizes /\
  exists kept : list (tensor * list tensor),
    image ds = kept.*1 /\ mask ds = kept.*2 /\
    length kept = length (List.filter (has_three_dims io) paths) /\
    len ds = Z.of_nat (length kept).
Proof.
  unfold __init__. simpl. intros H.
  apply load_inv in H as ((Ht & Hm & Hi & Hs & _) & kept & Himg & Hmask & Hk & Hl).
  simpl in *. repeat split; [done.. |].
  exists kept. repeat split; [done.. | lia].
Qed.

(** C1, as the code has it: after an eager construction the reported
    length is the number of supplied paths whose decoded array has three
    dimensions, which is the number of supplied paths less one for every
    path that was skipped. *)
Theorem eager_len_counts_three_dims io paths mp sizes tr mtr ds :
  __init__ io paths mp sizes tr mtr true = Ok ds ->
  __len__ ds = Z.of_nat (length (List.filter (has_three_dims io) paths)) /\
  __len__ ds = Z.of_nat (length paths)
               - Z.of_nat (length (List.filter (fun p => negb (has_three_dims io p)) paths)).
Proof.
  intros H. apply init_eager in H as (_ & _ & _ & _ & kept & _ & _ & Hk & Hl).
  unfold __len__. pose proof (filter_length (has_three_dims io) paths). lia.
Qed.

Lemma eager_len_counts_three_dims_witness :
  exists ds,
    __init__ Examples.files ["gray.png"; "rgb.png"; "rgba.png"] None (Some [8; 16])
      None None true = Ok ds /\
    __len__ ds = 2 /\ __len__ ds = 3 - 1.
Proof.
  eexists. split; [reflexivity|].
  apply (eager_len_counts_three_dims Examples.files
           ["gray.png"; "rgb.png"; "rgba.png"] None (Some [8; 16]) None None).
  reflexivity.
Defined.

(** C1 as stated fails: an RGBA image has four channels and is kept. *)
Lemma eager_len_rgba_counterexample :
  exists ds,
    __init__ Examples.files ["rgba.png"] None (Some [8; 16]) None None true = Ok ds /\
    __len__ ds = 1 /\
    Z.of_nat (length (List.filter (has_three_channels Examples.files) ["rgba.png"])) = 0.
Proof. eexists. split; [reflexivity|]. split; reflexivity. Qed.

(** C10: after a successful eager construction the image list and the
    mask list are as long as the reported length, and every index from 0
    up to the length is looked up without an error. *)
Theorem eager_lists_match_len io paths mp sizes tr mtr ds :
  __init__ io paths mp sizes tr mtr true = Ok ds ->
  length (image ds) = length (mask ds) /\
  Z.of_nat (length (image ds)) = __len__ ds /\
  forall idx, 0 <= idx < __len__ ds ->
    exists img masks,
      __getitem__ io ds idx = Ok (img, masks) /\
      image ds !! Z.to_nat idx = Some img /\ mask ds !! Z.to_nat idx = Some masks.
Proof.
  intros H. apply init_eager in H as (Hin & _ & _ & _ & kept & Hi & Hm & _ & Hl).
  unfold __len__. rewrite Hi, Hm, !length_fmap. repeat split; [lia|].
  intros idx Hidx. unfold __getitem__. rewrite Hin, Hi, Hm.
  destruct (index_in_range kept.*1 idx) as (img & -> & Himg); [rewrite length_fmap; lia|].
  destruct (index_in_range kept.*2 idx) as (ms & -> & Hms); [rewrite length_fmap; lia|].
  simpl. eauto.
Qed.

Lemma eager_lists_match_len_witness :
  exists ds,
    __init__ Examples.files ["gray.png"; "rgb.png"; "rgba.png"] None (Some [8; 16])
      None None true = Ok ds /\
    length (image ds) = length (mask ds) /\
    Z.of_nat (length (image ds)) = __len__ ds /\
    forall idx, 0 <= idx < __len__ ds ->
      exists img masks,
        __getitem__ Examples.files ds idx = Ok (img, masks) /\
        image ds !! Z.to_nat idx = Some img /\ mask ds !! Z.to_nat idx = Some masks.
Proof.
  eexists. split; [reflexivity|].
  apply (eager_lists_match_len Examples.files
           ["gray.png"; "rgb.png"; "rgba.png"] None (Some [8; 16]) None None).
  reflexivity.
Defined.

(** C3: a dataset built eagerly from three decodable RGB images, without
    mask paths and with mask sizes 8 and 16, has length 3, and every
    lookup returns two masks of shapes (1,8,8) and (1,16,16) whose values
    are all -1. *)
Theorem three_rgb_images_empty_masks io p1 p2 p3 a1 a2 a3 tr mtr :
  imread io p1 = Ok a1 -> imread io p2 = Ok a2 -> imread io p3 = Ok a3 ->
  channels a1 = Some 3%nat -> channels a2 = Some 3%nat -> channels a3 = Some 3%nat ->
  exists ds,
    __init__ io [p1; p2; p3] None (Some [8; 16]) tr mtr true = Ok ds /\
    __len__ ds = 3 /\
    forall idx, 0 <= idx < 3 ->
      exists img m8 m16,
        __getitem__ io ds idx = Ok (img, [m8; m16]) /\
        shape m8 = [1; 8; 8]%nat /\ shape m16 = [1; 16; 16]%nat /\
        length (data m8) = 64%nat /\ length (data m16) = 256%nat /\
        Forall (eq (F32.neg F32.one)) (data m8) /\
        Forall (eq (F32.neg F32.one)) (data m16).
Proof.
  intros H1 H2 H3 C1 C2 C3.
  apply channels_three_dims in C1, C2, C3.
  eexists. split.
  { unfold __init__. cbn [negb].
    rewrite (load_keep _ _ _ _ _ _ _ H1 C1). cbn zeta. unfold eager_masks at 1.
    rewrite get_empty_masks_8_16 by reflexivity. cbn [res_bind].
    rewrite (load_keep _ _ _ _ _ _ _ H2 C2). cbn zeta. unfold eager_masks at 1.
    rewrite get_empty_masks_8_16 by reflexivity. cbn [res_bind].
    rewrite (load_keep _ _ _ _ _ _ _ H3 C3). cbn zeta. unfold eager_masks at 1.
    rewrite get_empty_masks_8_16 by reflexivity. cbn [res_bind].
    reflexivity. }
  split; [reflexivity|].
  intros idx Hidx.
  assert (idx = 0 \/ idx = 1 \/ idx = 2) as [-> | [-> | ->]] by lia.
  all: do 3 eexists; split; [reflexivity|].
  all: repeat split; try reflexivity; apply Forall_replicate; reflexivity.
Qed.

Lemma three_rgb_images_empty_masks_witness :
  imread Examples.files "rgb.png" = Ok (Examples.pixels [2; 2; 3]%nat) /\
  channels (Examples.pixels [2; 2; 3]%nat) = Some 3%nat /\
  exists ds,
    __init__ Examples.files ["rgb.png"; "rgb.png"; "rgb.png"] None (Some [8; 16])
      None None true = Ok ds /\
    __len__ ds = 3 /\
    forall idx, 0 <= idx < 3 ->
      exists img m8 m16,
        __getitem__ Examples.files ds idx = Ok (img, [m8; m16]) /\
        shape m8 = [1; 8; 8]%nat /\ shape m16 = [1; 16; 16]%nat /\
        length (data m8) = 64%nat /\ length (data m16) = 256%nat /\
        Forall (eq (F32.neg F32.one)) (data m8) /\
        Forall (eq (F32.neg F32.one)) (data m16).
Proof.
  split; [reflexivity|]. split; [reflexivity|].
  apply (three_rgb_images_empty_masks Examples.files "rgb.png" "rgb.png" "rgb.png"
           (Examples.pixels [2; 2; 3]%nat) (Examples.pixels [2; 2; 3]%nat)
           (Examples.pixels [2; 2; 3]%nat) None None); reflexivity.
Defined.

(** C2, as the code has it: at an index up to which every supplied image
    decodes to a three-dimensional array (so that the eager loader has
    skipped nothing before it), and whose mask file, if any, decodes to an
    array of at most two dimensions, the lazy and the eager dataset built
    from the same arguments return the same (image, mask-list) pair. *)
Theorem lazy_eager_agree io paths mp sizes tr mtr ds_e ds_l idx :
  __init__ io paths mp sizes tr mtr true = Ok ds_e ->
  __init__ io paths mp sizes tr mtr false = Ok ds_l ->
  0 <= idx < __len__ ds_e ->
  (forall j p, (j <= Z.to_nat idx)%nat -> paths !! j = Some p -> has_three_dims io p = true) ->
  (forall mps p m, mp = Some mps -> mps !! Z.to_nat idx = Some (Some p) ->
                   imread io p = Ok m -> (length (shape m) <= 2)%nat) ->
  exists item,
    __getitem__ io ds_e idx = Ok item /\ __getitem__ io ds_l idx = Ok item.
Proof.
  intros He Hl Hidx H3 Hgray.
  pose proof (init_eager _ _ _ _ _ _ _ He) as (Hin & _ & _ & _ & kept & _ & _ & Hk & Hlen).
  unfold __len__ in Hidx.
  pose proof (filter_length_le (has_three_dims io) paths) as Hle.
  destruct (lookup_lt_is_Some_2 paths (Z.to_nat idx)) as [p Hp]; [lia|].
  unfold __init__ in He, Hl. cbn [negb] in He, Hl.
  destruct (load_lookup _ _ _ _ _ _ _ _ He Hp H3) as (a & ms & Ha & Hms & Hi & Hm).
  cbn in Hi, Hm, Hms. injection Hl as <-.
  exists (apply tr a, ms). split.
  - unfold __getitem__. rewrite Hin, !index_nat, Hi, Hm by lia. reflexivity.
  - unfold __getitem__. cbn [in_memory image_paths mask_paths transform].
    rewrite (index_nat paths), Hp by lia. cbn [res_bind]. rewrite Ha. cbn [res_bind].
    destruct mp as [mps|].
    + unfold eager_masks in Hms. apply res_bind_Ok in Hms as (q & Hq & Hms).
      apply res_bind_Ok in Hms as (mk & Hmk & Hms).
      rewrite Z2Nat.id in Hq by lia. rewrite Hq. cbn [res_bind].
      destruct q as [q|]; [|discriminate].
      unfold imread_as_gray in Hmk. apply res_bind_Ok in Hmk as (m0 & Hm0 & Hmk).
      rewrite index_nat in Hq by lia.
      destruct (mps !! Z.to_nat idx) as [q'|] eqn:Eq; [|discriminate].
      injection Hq as ->.
      pose proof (Hgray mps q m0 eq_refl Eq Hm0) as Hdim.
      destruct (Nat.ltb_spec 2 (length (shape m0))) as [|_]; [lia|].
      injection Hmk as <-.
      unfold lazy_masks. rewrite Hm0. cbn [res_bind].
      unfold for_sizes, get_mask in *. cbn [mask_sizes mask_transform] in *.
      by rewrite Hms.
    + cbn in Hms. rewrite index_nat by lia.
      rewrite lookup_replicate_2 by lia. cbn [res_bind lazy_masks].
      unfold get_empty_masks, for_sizes in *. cbn [mask_sizes] in *.
      by rewrite Hms.
Qed.

Lemma lazy_eager_agree_witness :
  exists ds_e ds_l,
    __init__ Examples.files ["rgb.png"; "gray.png"] (Some [Some "gray.png"; None]) (Some [8; 16])
      None None true = Ok ds_e /\
    __init__ Examples.files ["rgb.png"; "gray.png"] (Some [Some "gray.png"; None]) (Some [8; 16])
      None None false = Ok ds_l /\
    0 <= 0 < __len__ ds_e /\
    has_three_dims Examples.files "rgb.png" = true /\
    imread Examples.files "gray.png" = Ok (Examples.pixels [2; 2]%nat) /\
    exists item,
      __getitem__ Examples.files ds_e 0 = Ok item /\
      __getitem__ Examples.files ds_l 0 = Ok item.
Proof.
  do 2 eexists. split; [reflexivity|]. split; [reflexivity|].
  split; [vm_compute; split; [discriminate | reflexivity]|].
  split; [reflexivity|]. split; [reflexivity|].
  apply (lazy_eager_agree Examples.files ["rgb.png"; "gray.png"]
           (Some [Some "gray.png"; None]) (Some [8; 16]) None None).
  - reflexivity.
  - reflexivity.
  - vm_compute. split; [discriminate | reflexivity].
  - intros [|j] p Hj; [|simpl in Hj; lia]. intros [= <-]. reflexivity.
  - intros mps p m [= <-] [= <-] [= <-]. simpl. lia.
Defined.

Lemma lazy_eager_differ_counterexample :
  exists ds_e ds_l,
    __init__ Examples.files ["gray.png"; "rgb.png"] None (Some [8; 16]) None None true = Ok ds_e /\
    __init__ Examples.files ["gray.png"; "rgb.png"] None (Some [8; 16]) None None false = Ok ds_l /\
    0 <= 0 < __len__ ds_e /\ 0 <= 0 < __len__ ds_l /\
    __getitem__ Examples.files ds_e 0 <> __getitem__ Examples.files ds_l 0.
Proof.
  do 2 eexists. split; [reflexivity|]. split; [reflexivity|].
  split; [vm_compute; split; [discriminate | reflexivity]|].
  split; [vm_compute; split; [discriminate | reflexivity]|].
  vm_compute. discriminate.
Qed.
End flower_dataset_claims.

(** ** Tensor operations *)

Module Torch_facts.
Import Torch.

Lemma chunks_length {A} (n k : nat) (l : list A) : length (chunks n k l) = k.
Proof. revert l; induction k as [|k IH]; intros l; simpl; [done | by rewrite IH]. Qed.

Lemma chunks_each {A} (n k : nat) (l : list A) :
  length l = (k * n)%nat -> Forall (fun c => length c = n) (chunks n k l).
Proof.
  revert l; induction k as [|k IH]; intros l Hl; simpl; constructor.
  - rewrite length_take. lia.
  - apply IH. rewrite length_drop. lia.
Qed.

Lemma concat_chunks {A} (n k : nat) (l : list A) :
  length l = (k * n)%nat -> concat (chunks n k l) = l.
Proof.
  revert l; induction k as [|k IH]; intros l Hl; simpl.
  - by destruct l.
  - rewrite IH; [apply take_drop | rewrite length_drop; lia].
Qed.

Lemma expand_self {A} (s : list nat) : forall d : list A,
  length d = numel s -> expand s s d = Ok d.
Proof.
  induction s as [|n s IH]; intros d Hd; simpl; [done|].
  rewrite Nat.eqb_refl. simpl in Hd.
  rewrite res_mapM_id.
  - simpl. by rewrite concat_chunks.
  - eapply Forall_impl; [by apply chunks_each|]. simpl. intros c Hc. by apply IH.
Qed.

Lemma broadcast_to_self (t : tensor) :
  well_formed t -> broadcast_to t (shape t) = Ok (data t).
Proof.
  intros Hwf. unfold broadcast_to. rewrite Nat.ltb_irrefl, Nat.sub_diag. simpl.
  by apply expand_self.
Qed.

(** Broadcasting only copies elements. *)
Lemma res_mapM_Forall {A B} (f : A -> res B) (P : A -> Prop) (Q : B -> Prop) l l' :
  (forall x y, P x -> f x = Ok y -> Q y) ->
  Forall P l -> res_mapM f l = Ok l' -> Forall Q l'.
Proof.
  intros Hf Hl; revert l'; induction Hl as [|x l Hx _ IH]; intros l' H; simpl in H.
  - inv_res. subst. constructor.
  - inv_res. subst. constructor; eauto.
Qed.

Lemma chunks_Forall {A} (P : A -> Prop) n k (l : list A) :
  Forall P l -> Forall (Forall P) (chunks n k l).
Proof.
  revert l; induction k as [|k IH]; intros l Hl; simpl; constructor.
  - by apply Forall_take.
  - apply IH. by apply Forall_drop.
Qed.

Lemma expand_Forall {A} (P : A -> Prop) (s : list nat) : forall tgt (d d' : list A),
  Forall P d -> expand s tgt d = Ok d' -> Forall P d'.
Proof.
  induction s as [|n s IH]; intros [|m tgt] d d' Hd H; simpl in H; try discriminate.
  - by injection H as <-.
  - destruct (n =? m)%nat.
    + apply res_bind_Ok in H as (parts & Hparts & H). injection H as <-.
      apply Forall_concat.
      eapply (res_mapM_Forall _ (Forall P)); [|by apply chunks_Forall|done].
      intros x y Hx Hy. by eapply IH.
    + destruct (n =? 1)%nat; [|discriminate].
      apply res_bind_Ok in H as (part & Hpart & H). injection H as <-.
      apply Forall_concat, Forall_replicate. eauto.
Qed.

Lemma broadcast_to_Forall (P : spec_float -> Prop) t tgt d' :
  Forall P (data t) -> broadcast_to t tgt = Ok d' -> Forall P d'.
Proof.
  unfold broadcast_to. intros Hd H.
  destruct (_ <? _)%nat; [discriminate|]. by eapply expand_Forall.
Qed.
Lemma M_bind_Ok {A B} (m : M A) (k : A -> M B) r b r'' :
  M_bind m k r = Ok (b, r'') -> exists a r', m r = Ok (a, r') /\ k a r' = Ok (b, r'').
Proof. unfold M_bind. destruct (m r) as [[a r']|e]; [eauto | discriminate]. Qed.

Lemma M_lift_Ok {A} (m : res A) r a r' : M_lift m r = Ok (a, r') -> m = Ok a /\ r' = r.
Proof. unfold M_lift. destruct m; [|discriminate]. by intros [= -> ->]. Qed.

Lemma Forall_zip_with {A B C} (P : A -> Prop) (Q : B -> Prop) (R : C -> Prop)
    (f : A -> B -> C) l1 l2 :
  (forall x y, P x -> Q y -> R (f x y)) ->
  Forall P l1 -> Forall Q l2 -> Forall R (zip_with f l1 l2).
Proof.
  intros Hf H1; revert l2; induction H1 as [|x l1 Hx _ IH]; intros l2 H2; simpl; [done|].
  destruct H2 as [|y l2 Hy H2]; [done|]. constructor; auto.
Qed.

Lemma zip_with_const_l {A B} (f : A -> B -> A) (a : A) (l : list B) :
  Forall (fun y => f a y = a) l ->
  zip_with f (replicate (length l) a) l = replicate (length l) a.
Proof. induction 1 as [|y l Hy _ IH]; simpl; [done | by rewrite Hy, IH]. Qed.

Lemma dims_nonneg (l : list Z) :
  Forall (fun z => 0 <= z) l -> dims l = Ok (Z.to_nat <$> l).
Proof.
  unfold dims. induction 1 as [|z l Hz _ IH]; simpl; [done|].
  destruct (Z.ltb_spec z 0); [lia|]. simpl. by rewrite IH.
Qed.
End Torch_facts.

(** ** Rounding to binary32 *)

Module Rounding.

Lemma Zdigits2_log2 m : 0 < m -> Zdigits2 m = Z.log2 m + 1.
Proof.
  destruct m as [|p|p]; try lia. intros _. simpl.
  assert (H : forall q, digits2_pos q = Pos.size q) by (induction q; simpl; congruence).
  rewrite H. destruct p; simpl; lia.
Qed.

Lemma Zdigits2_0 : Zdigits2 0 = 0.
Proof. reflexivity. Qed.

Lemma iter_pos_nat {A} (f : A -> A) p : forall x, SpecFloat.iter_pos f p x = Nat.iter (Pos.to_nat p) f x.
Proof.
  induction p as [p IH|p IH|]; intros x; cbn [SpecFloat.iter_pos].
  - rewrite !IH, Pos2Nat.inj_xI, Nat.iter_succ_r.
    replace (2 * Pos.to_nat p)%nat with (Pos.to_nat p + Pos.to_nat p)%nat by lia.
    by rewrite Nat.iter_add.
  - rewrite !IH, Pos2Nat.inj_xO.
    replace (2 * Pos.to_nat p)%nat with (Pos.to_nat p + Pos.to_nat p)%nat by lia.
    by rewrite Nat.iter_add.
  - reflexivity.
Qed.

Lemma shr_1_m mrs : 0 <= shr_m mrs -> shr_m (shr_1 mrs) = Z.div2 (shr_m mrs).
Proof.
  destruct mrs as [m r s]. simpl. destruct m as [|[p|p|]|p]; simpl; try reflexivity; lia.
Qed.

Lemma shr_iter_m n : forall mrs,
  0 <= shr_m mrs -> shr_m (Nat.iter n shr_1 mrs) = Z.shiftr (shr_m mrs) (Z.of_nat n).
Proof.
  induction n as [|n IH]; intros mrs Hm.
  - simpl. by rewrite Z.shiftr_0_r.
  - rewrite Nat2Z.inj_succ. simpl. rewrite shr_1_m.
    + rewrite IH by done. rewrite Z.div2_spec, Z.shiftr_shiftr by lia. f_equal; lia.
    + rewrite IH by done. apply Z.shiftr_nonneg. done.
Qed.

Lemma shr_spec mrs e n :
  0 <= shr_m mrs ->
  (shr mrs e n).2 = e + Z.max 0 n /\
  shr_m (shr mrs e n).1 = Z.shiftr (shr_m mrs) (Z.max 0 n).
Proof.
  intros Hm. destruct n as [|p|p]; simpl.
  - rewrite Z.shiftr_0_r. split; [lia | done]. 
  - split; [lia|]. rewrite iter_pos_nat, shr_iter_m by done. by rewrite positive_nat_Z.
  - split; [lia|]. done.
Qed.

Lemma shr_record_of_loc_m m l : shr_m (shr_record_of_loc m l) = m.
Proof. by destruct l as [|[]]. Qed.

Lemma round_nearest_even_bounds m l : m <= round_nearest_even m l <= m + 1.
Proof. destruct l as [|[]]; simpl; try lia. destruct (Z.even m); lia. Qed.

Section Format.
Variables prec emax : Z.
Local Abbreviation stage1 := (stage1 prec emax).

Lemma binary_round_aux_spec s m e l :
  0 <= m ->
  exists m2,
    (stage1 m e).1 <= m2 <= (stage1 m e).1 + 1 /\
    binary_round_aux prec emax s m e l =
      match (stage1 m2 (stage1 m e).2).1 with
      | Z0 => S754_zero s
      | Zpos p =>
          if (stage1 m2 (stage1 m e).2).2 <=? emax - prec
          then S754_finite s p (stage1 m2 (stage1 m e).2).2
          else S754_infinity s
      | Zneg _ => S754_nan
      end.
Proof.
  intros Hm. unfold binary_round_aux, stage1, shr_fexp. cbn [fst snd].
  set (n1 := fexp prec emax (Zdigits2 m + e) - e).
  pose proof (shr_spec (shr_record_of_loc m l) e n1) as [He1 Hm1];
    [by rewrite shr_record_of_loc_m|].
  rewrite shr_record_of_loc_m in Hm1.
  destruct (shr (shr_record_of_loc m l) e n1) as [mrs1 e1]. simpl in He1, Hm1. subst e1.
  set (m2 := round_nearest_even (shr_m mrs1) (loc_of_shr_record mrs1)).
  exists m2. rewrite <- Hm1.
  split; [apply round_nearest_even_bounds|].
  assert (0 <= m2).
  { pose proof (round_nearest_even_bounds (shr_m mrs1) (loc_of_shr_record mrs1)).
    assert (0 <= shr_m mrs1) by (rewrite Hm1; by apply Z.shiftr_nonneg). fold m2 in H. lia. }
  set (n2 := fexp prec emax (Zdigits2 m2 + (e + Z.max 0 n1)) - (e + Z.max 0 n1)).
  pose proof (shr_spec (shr_record_of_loc m2 loc_Exact) (e + Z.max 0 n1) n2) as [He3 Hm3];
    [done|].
  destruct (shr (shr_record_of_loc m2 loc_Exact) (e + Z.max 0 n1) n2) as [mrs3 e3].
  simpl in He3, Hm3. subst e3. rewrite Hm3. reflexivity.
Qed.
End Format.

Lemma shiftr_pos m n : 0 < m -> 0 <= n <= Z.log2 m -> 0 < Z.shiftr m n.
Proof.
  intros Hm Hn. rewrite Z.shiftr_div_pow2 by lia.
  apply Z.div_str_pos. split; [by apply Z.pow_pos_nonneg; lia|].
  etrans; [apply Z.pow_le_mono_r with (c := Z.log2 m); lia|].
  by apply Z.log2_spec.
Qed.

Lemma stage1_nonneg prec emax m e : 0 <= m -> 0 <= (stage1 prec emax m e).1.
Proof. intros Hm. unfold stage1. cbn [fst]. by apply Z.shiftr_nonneg. Qed.

(** binary32 *)
Lemma stage1_pos m e :
  0 < m -> -149 <= e ->
  0 < (stage1 24 128 m e).1 /\ -149 <= (stage1 24 128 m e).2.
Proof.
  intros Hm He. unfold stage1, fexp, emin. cbn [fst snd].
  rewrite Zdigits2_log2 by done.
  pose proof (Z.log2_nonneg m).
  split; [apply shiftr_pos; lia | lia].
Qed.

Lemma stage1_log2 m e :
  0 < m ->
  (stage1 24 128 m e).2 = Z.max e (Z.max (Z.log2 m + 1 + e - 24) (-149)) /\
  Z.log2 (stage1 24 128 m e).1 + (stage1 24 128 m e).2
    = Z.max (stage1 24 128 m e).2 (Z.log2 m + e).
Proof.
  intros Hm. unfold stage1, fexp, emin. cbn [fst snd].
  rewrite Zdigits2_log2 by done.
  set (n := Z.max 0 _).
  split; [lia|].
  rewrite Z.log2_shiftr by done. lia.
Qed.

Lemma binary_round_aux_not_nan s m e l :
  0 <= m -> binary_round_aux 24 128 s m e l <> S754_nan.
Proof.
  intros Hm. destruct (binary_round_aux_spec 24 128 s m e l Hm) as (m2 & Hm2 & ->).
  pose proof (stage1_nonneg 24 128 m e Hm).
  pose proof (stage1_nonneg 24 128 m2 (stage1 24 128 m e).2).
  destruct (stage1 24 128 m2 _).1; [done | by destruct (_ <=? _) | lia].
Qed.

Lemma binary_round_aux_not_zero s m e l z :
  0 < m -> -149 <= e -> binary_round_aux 24 128 s m e l <> S754_zero z.
Proof.
  intros Hm He.
  destruct (binary_round_aux_spec 24 128 s m e l) as (m2 & Hm2 & ->); [lia|].
  pose proof (stage1_pos m e Hm He) as [Hm1 He1].
  pose proof (stage1_pos m2 (stage1 24 128 m e).2) as [Hm3 He3]; [lia.. |].
  destruct (stage1 24 128 m2 _).1; [lia | by destruct (_ <=? _) | lia].
Qed.

Lemma binary_round_aux_no_overflow s m e l z :
  0 < m -> Z.log2 m + e <= 126 -> e <= 103 ->
  binary_round_aux 24 128 s m e l <> S754_infinity z.
Proof.
  intros Hm HM He.
  destruct (binary_round_aux_spec 24 128 s m e l) as (m2 & Hm2 & ->); [lia|].
  pose proof (stage1_log2 m e Hm) as [He1 Hl1].
  pose proof (stage1_nonneg 24 128 m e) as Hm1.
  set (m1 := (stage1 24 128 m e).1) in *. set (e1 := (stage1 24 128 m e).2) in *.
  destruct (Z.eq_dec m2 0) as [->|Hne]; [unfold stage1; cbn [fst]; by rewrite Z.shiftr_0_l|].
  assert (Hpos : 0 < m2) by lia.
  pose proof (stage1_log2 m2 e1 Hpos) as [He3 Hl3].
  assert (Z.log2 m2 <= Z.log2 m1 + 1).
  { etrans; [apply Z.log2_le_mono with (b := Z.succ m1); lia|].
    pose proof (Z.log2_succ_le m1). lia. }
  destruct (stage1 24 128 m2 e1).1; [done | | done].
  destruct (Z.leb_spec (stage1 24 128 m2 e1).2 (128 - 24)); [done | lia].
Qed.
End Rounding.

(** ** binary32 arithmetic *)

Module F32_facts.
Import Rounding.

Lemma binary_round_not_nan s m e : binary_round 24 128 s m e <> S754_nan.
Proof.
  unfold binary_round. destruct (shl_align _ _ _) as [mz ez].
  by apply binary_round_aux_not_nan.
Qed.

Lemma binary_round_not_zero s m e z :
  -149 <= e -> binary_round 24 128 s m e <> S754_zero z.
Proof.
  intros He. unfold binary_round.
  destruct (shl_align _ _ _) as [mz ez] eqn:E.
  apply binary_round_aux_not_zero; [done|].
  unfold shl_align in E. set (e' := fexp 24 128 _) in E.
  assert (-149 <= e') by (unfold e', fexp, emin; lia).
  destruct (e' - e) eqn:E'; injection E as <- <-; lia.
Qed.

Lemma binary_normalize_not_nan m e z : binary_normalize 24 128 m e z <> S754_nan.
Proof. destruct m; simpl; [done | apply binary_round_not_nan..]. Qed.

(** A positive integer converts to a positive number or to +infinity. *)
Lemma of_Z_pos z :
  0 < z ->
  (exists m e, F32.of_Z z = S754_finite false m e) \/ F32.of_Z z = S754_infinity false.
Proof.
  destruct z as [|p|p]; try lia. intros _. unfold F32.of_Z, F32.prec, F32.emax. simpl.
  pose proof (binary_round_not_nan false p 0) as Hn.
  assert (H0 : -149 <= 0) by lia.
  pose proof (fun z => binary_round_not_zero false p 0 z H0) as Hz.
  assert (Hs : match binary_round 24 128 false p 0 with
               | S754_finite s _ _ | S754_infinity s => s = false
               | _ => True
               end).
  { unfold binary_round. destruct (shl_align _ _ _) as [mz ez].
    destruct (binary_round_aux_spec 24 128 false (Z.pos mz) ez loc_Exact) as (m2 & _ & ->);
      [done|].
    destruct (stage1 _ _ _ _).1; [done | by destruct (_ <=? _) | done]. }
  destruct (binary_round 24 128 false p 0) as [s|s| |s m e]; subst; try done.
  - by destruct (Hz s).
  - by right.
  - left. eauto.
Qed.

Lemma bounded_log2 m e :
  bounded 24 128 m e = true -> Z.log2 (Z.pos m) <= 23 /\ e <= 104.
Proof.
  unfold bounded, canonical_mantissa, fexp, emin. intros H.
  apply andb_prop in H as [H1 H2]. apply Z.eqb_eq in H1. apply Z.leb_le in H2.
  pose proof (Zdigits2_log2 (Z.pos m) ltac:(done)) as Hd.
  change (Zdigits2 (Z.pos m)) with (Z.pos (digits2_pos m)) in Hd. lia.
Qed.

(** The binary32 value of the literal 0.1. *)
Lemma round_tenth : F32.round Py.tenth = S754_finite false 13421773 (-27).
Proof. reflexivity. Qed.

(** A finite number times 0.1 neither overflows nor is NaN. *)
Lemma mul_tenth_real z :
  F32.is_finite z = true -> F32.is_real (F32.mul z (F32.round Py.tenth)) = true.
Proof.
  rewrite round_tenth. destruct z as [s|s| |s m e]; simpl; try done.
  intros Hb. apply bounded_log2 in Hb as [Hm He].
  unfold F32.mul, F32.prec, F32.emax, SFmul.
  assert (H0 : 0 < Z.pos (m * 13421773)) by done.
  pose proof (binary_round_aux_not_nan (xorb s false) (Z.pos (m * 13421773)) (e + -27) loc_Exact
                (Z.lt_le_incl _ _ H0)) as Hn.
  pose proof (fun z => binary_round_aux_no_overflow (xorb s false) (Z.pos (m * 13421773))
                         (e + -27) loc_Exact z H0) as Ho.
  destruct (binary_round_aux _ _ _ _ _ _) as [?|z| |? ? ?]; try done.
  exfalso. apply (Ho z); [|lia|done].
  pose proof (Z.log2_mul_above (Z.pos m) 13421773 ltac:(done) ltac:(done)) as Hl.
  change (Z.log2 13421773) with 23 in Hl.
  change (Z.pos (m * 13421773)) with (Z.pos m * 13421773). lia.
Qed.

Lemma add_not_nan x d :
  F32.is_real x = true -> F32.is_nan d = false -> F32.is_nan (F32.add x d) = false.
Proof.
  unfold F32.add, F32.prec, F32.emax.
  destruct x as [sx|sx| |sx mx ex], d as [sd|sd| |sd md ed]; simpl; try done.
  - by destruct sx, sd.
  - intros _ _. set (r := binary_normalize _ _ _ _ _).
    pose proof (binary_normalize_not_nan
                  (cond_Zopp sx (Z.pos (shl_align mx ex (ex `min` ed)).1)
                   + cond_Zopp sd (Z.pos (shl_align md ed (ex `min` ed)).1))
                  (ex `min` ed) false) as H.
    fold r in H. by destruct r.
Qed.

Lemma sub_self x : F32.is_real x = true -> F32.sub x x = S754_zero false.
Proof.
  unfold F32.sub, F32.prec, F32.emax.
  destruct x as [s|s| |s m e]; simpl; try done.
  - by destruct s.
  - intros _. by rewrite Z.sub_diag.
Qed.

(** *** Order *)

Lemma compare_swap x y : SFcompare y x = CompOpp <$> SFcompare x y.
Proof.
  destruct x as [sx|sx| |sx mx ex], y as [sy|sy| |sy my ey]; simpl; try done;
    try (by destruct sx); try (by destruct sy); try (by destruct sx, sy).
  pose proof (Pos.compare_cont_antisym mx my Eq) as Hc. simpl in Hc.
  destruct sx, sy; simpl; try done;
    rewrite (Z.compare_antisym ex ey); destruct (ex ?= ey); simpl; try done;
    by rewrite <- Hc.
Qed.

Lemma compare_total x y :
  F32.is_nan x = false -> F32.is_nan y = false -> is_Some (SFcompare x y).
Proof. destruct x, y; simpl; try done; eauto. Qed.

Lemma not_ltb_leb x y :
  F32.is_nan x = false -> F32.is_nan y = false ->
  F32.ltb x y = false -> F32.leb y x = true.
Proof.
  intros Hx Hy. unfold F32.ltb, F32.leb, SFltb, SFleb. rewrite (compare_swap x y).
  destruct (compare_total x y Hx Hy) as [c ->]. by destruct c.
Qed.
End F32_facts.

(** ** get_label, noise_input *)

Module label_claims.
Import Torch Torch_facts F32_facts.

(** *** The uniform variates *)







(** C6: with noise level 0, [noise_input] returns its argument: the
    shape and the values are those of [data], and only the device is the
    one asked for.  No random number is drawn. *)
Theorem noise_input_zero x device clip r :
  noise_input x Py.zero device clip r = Ok (Torch.to x device, r) /\
  shape (Torch.to x device) = shape x /\
  data (Torch.to x device) = data x /\
  dev (Torch.to x device) = default (dev x) device.
Proof. split; [reflexivity|]. by destruct device. Qed.

(** *** Clamping *)

Lemma clamp1_in_range v :
  F32.is_nan v = false ->
  F32.in_range (F32.neg F32.one) F32.one
    (clamp1 (F32.round (Py.of_Z (-1))) (F32.round (Py.of_Z 1)) v) = true.
Proof.
  intros Hv. unfold clamp1. rewrite Hv.
  change (F32.round (Py.of_Z (-1))) with (F32.neg F32.one).
  change (F32.round (Py.of_Z 1)) with F32.one.
  destruct (F32.ltb v (F32.neg F32.one)) eqn:E1; [reflexivity|].
  destruct (F32.ltb F32.one v) eqn:E2; [reflexivity|].
  unfold F32.in_range. apply andb_true_intro. split; by apply not_ltb_leb.
Qed.

Lemma noise_input_data x device clip r y r' :
  noise_input x Py.tenth device clip r = Ok (y, r') ->
  exists xb,
    broadcast_to (Torch.to x device) (shape x) = Ok xb /\
    let noisy := zip_with F32.add
                   ((fun z => F32.mul z (F32.round Py.tenth))
                      <$> (torch_normal r <$> seq (torch_pos r) (numel (shape x)))) xb in
    shape y = shape x /\
    data y = if clip
             then clamp1 (F32.round (Py.of_Z (-1))) (F32.round (Py.of_Z 1)) <$> noisy
             else noisy.
Proof.
  unfold noise_input. change (Py.eqb Py.tenth Py.zero) with false. cbn iota.
  intros H. apply M_bind_Ok in H as (z & r1 & Hz & H).
  unfold TorchRandom.draw in Hz. injection Hz as <- <-.
  apply M_bind_Ok in H as (t & r2 & Ht & H).
  apply M_lift_Ok in Ht as [Ht ->]. injection H as <- <-.
  unfold iadd, inplace in Ht. destruct (negb _); [discriminate|].
  apply res_bind_Ok in Ht as (xb & Hxb & Ht). injection Ht as <-.
  exists xb. split; [done|]. by destruct clip.
Qed.

(** C7, as the code has it: when [data] holds no NaN, every value of the
    tensor that [noise_input] returns for noise level 0.1 with clipping
    lies in the interval from -1 to 1. *)
Theorem noise_input_clipped x device r y r' :
  normal_finite r ->
  Forall (fun v => F32.is_nan v = false) (data x) ->
  noise_input x Py.tenth device true r = Ok (y, r') ->
  Forall (fun v => F32.in_range (F32.neg F32.one) F32.one v = true) (data y).
Proof.
  intros Hr Hx H. apply noise_input_data in H as (xb & Hxb & _ & ->).
  apply Forall_fmap.
  eapply (Forall_zip_with (fun v => F32.is_real v = true) (fun v => F32.is_nan v = false)).
  - intros v d Hv Hd. simpl. apply clamp1_in_range. by apply add_not_nan.
  - apply Forall_fmap, Forall_fmap, Forall_forall. intros i _. simpl.
    apply mul_tenth_real, Hr.
  - eapply broadcast_to_Forall; [|done]. by destruct device.
Qed.

Lemma noise_input_clipped_witness :
  exists y r',
    normal_finite Examples.generator /\
    noise_input (Tensor [2%nat] [S754_infinity true; F32.one] cpu) Py.tenth None true
      Examples.generator = Ok (y, r') /\
    Forall (fun v => F32.in_range (F32.neg F32.one) F32.one v = true) (data y).
Proof.
  do 2 eexists.
  split; [intros i; simpl; destruct (Nat.even i); reflexivity|].
  split; [lazy; reflexivity|].
  eapply (noise_input_clipped (Tensor [2%nat] [S754_infinity true; F32.one] cpu) None
            Examples.generator).
  - intros i; simpl; destruct (Nat.even i); reflexivity.
  - repeat constructor.
  - lazy; reflexivity.
Defined.

(** C7 as stated fails: a NaN in [data] comes out as NaN. *)
Lemma noise_input_nan_counterexample :
  exists y r',
    noise_input (Tensor [1%nat] [S754_nan] cpu) Py.tenth None true Examples.generator
      = Ok (y, r') /\
    ~ Forall (fun v => F32.in_range (F32.neg F32.one) F32.one v = true) (data y).
Proof.
  do 2 eexists. split; [lazy; reflexivity|].
  intros H. apply Forall_cons_1 in H as [H _]. discriminate H.
Qed.

(** The call returns whenever the storage of [data] matches its shape and
    [data] is on the device the noise is created on. *)
Lemma noise_input_returns x device clip r :
  well_formed x -> (device = None -> dev x = cpu) ->
  exists y r', noise_input x Py.tenth device clip r = Ok (y, r') /\ shape y = shape x.
Proof.
  intros Hwf Hdev. unfold noise_input. change (Py.eqb Py.tenth Py.zero) with false. cbn iota.
  set (x' := Torch.to x device).
  assert (Hwf' : well_formed x') by (by destruct device).
  assert (Hs : shape x = shape x') by (by destruct device).
  assert (Hd : default cpu device = dev x')
    by (unfold x'; destruct device; [done | simpl; by rewrite Hdev]).
  unfold M_bind, TorchRandom.draw, M_lift, iadd, inplace, mul_scalar, map. cbn [shape dev data].
  rewrite bool_decide_true by done. cbn [orb negb].
  rewrite Hs, broadcast_to_self by done.
  cbn [res_bind M_ret]. do 2 eexists. split; [reflexivity|]. by destruct clip.
Qed.
End label_claims.

(** ** mask_pair_to_label *)

Module mask_pair_claims.
Import Torch Torch_facts F32_facts.

Lemma broadcast_rev_self s : broadcast_rev s s = Ok s.
Proof. induction s as [|n s IH]; simpl; [done|]. by rewrite IH, Nat.eqb_refl. Qed.

Lemma broadcast_shapes_self s : broadcast_shapes s s = Ok s.
Proof. unfold broadcast_shapes. rewrite broadcast_rev_self. simpl. by rewrite reverse_involutive. Qed.

(** An operation on two tensors of one shape and one device works element
    by element. *)
Lemma binop_same_shape f a b :
  dev a = dev b -> shape a = shape b -> well_formed a -> well_formed b ->
  binop f a b = Ok (Tensor (shape a) (zip_with f (data a) (data b)) (dev a)).
Proof.
  intros Hd Hs Ha Hb. unfold binop, result_device.
  rewrite bool_decide_true by done. cbn [res_bind].
  rewrite <- Hs, broadcast_shapes_self. cbn [res_bind].
  rewrite broadcast_to_self by done. rewrite Hs, broadcast_to_self by done.
  by rewrite <- Hs.
Qed.

Lemma index_last_nonempty {A} (l : list A) :
  l <> [] -> exists x, Py.index l (-1) = Ok x.
Proof.
  intros Hl. destruct (decide (l = [])) as [|_]; [done|].
  assert (exists l' x, l = l' ++ [x]) as (l' & x & ->).
  { destruct l as [|y l] using rev_ind; [done | eauto]. }
  exists x. apply index_last.
Qed.

Lemma chunks_replicate {A} (c b : nat) (x : A) :
  chunks c b (replicate (b * c) x) = replicate b (replicate c x).
Proof.
  induction b as [|b IH]; simpl; [done|].
  rewrite take_replicate, drop_replicate. f_equal.
  - f_equal. lia.
  - rewrite <- IH. f_equal. f_equal. lia.
Qed.

Lemma Forall_eq_replicate {A} (x : A) (l : list A) :
  Forall (eq x) l -> l = replicate (length l) x.
Proof. induction 1 as [|y l <- _ IH]; simpl; [done | by f_equal]. Qed.

(** Zeros add up to zero in every order. *)
Lemma sum_zeros o c : sum_in o (replicate c F32.zero) = F32.zero.
Proof.
  induction o as [|i|l IHl r IHr]; cbn [sum_in]; [done | | by rewrite IHl, IHr].
  destruct (replicate c F32.zero !! i) as [x|] eqn:Hx; [|done].
  by apply lookup_replicate in Hx as [-> _].
Qed.

Lemma zero_div_count c : (0 < c)%nat -> F32.div F32.zero (F32.of_Z (Z.of_nat c)) = F32.zero.
Proof.
  intros Hc. destruct (of_Z_pos (Z.of_nat c)) as [(m & e & ->) | ->]; [lia | done..].
Qed.

Lemma row_mean_zeros o c : (0 < c)%nat -> row_mean o c (replicate c F32.zero) = F32.zero.
Proof. intros Hc. unfold row_mean. rewrite sum_zeros. by apply zero_div_count. Qed.

(** Half the absolute difference of a finite number with itself. *)
Lemma half_abs_diff_self v :
  F32.is_real v = true ->
  F32.div (F32.abs (F32.sub v v)) (F32.round (Py.of_Z 2)) = F32.zero.
Proof. intros Hv. by rewrite sub_self. Qed.

Lemma half_abs_diff_zeros s d dv :
  Forall (fun v => F32.is_real v = true) d ->
  div_scalar (abs (Tensor s (zip_with F32.sub d d) dv)) (Py.of_Z 2)
    = Tensor s (replicate (length d) F32.zero) dv.
Proof.
  intros Hd. unfold div_scalar, abs, map. cbn [shape data dev]. f_equal.
  rewrite zip_with_diag, <- !list_fmap_compose.
  rewrite <- (length_fmap (fun v => F32.div (F32.abs (F32.sub v v)) (F32.round (Py.of_Z 2)))).
  apply Forall_eq_replicate, Forall_fmap. eapply Forall_impl; [done|].
  intros v Hv. simpl. symmetry. by apply half_abs_diff_self.
Qed.

Lemma view_rows_batch b rest d dv :
  (b * numel rest <> 0)%nat ->
  view_rows (Tensor (b :: rest) d dv) b = Ok (Tensor [b; numel rest] d dv).
Proof.
  intros Hn. unfold view_rows. cbn [shape data dev numel foldr]. fold (numel rest).
  destruct (Nat.eqb_spec b 0) as [|_]; [lia|].
  rewrite (Nat.mul_comm b), Nat.Div0.mod_mul, Nat.div_mul by lia. done.
Qed.

Lemma mean_dim1_zeros ord b c dv :
  (0 < c)%nat ->
  mean_dim1 ord (Tensor [b; c] (replicate (b * c) F32.zero) dv)
    = Ok (Tensor [b] (replicate b F32.zero) dv).
Proof.
  intros Hc. unfold mean_dim1. cbn [shape data dev].
  by rewrite chunks_replicate, fmap_replicate, row_mean_zeros.
Qed.

Lemma ones_minus_zeros b d dv :
  dv = default cpu d ->
  Torch.sub (fill [b] F32.one d) (Tensor [b] (replicate b F32.zero) dv)
    = Ok (Tensor [b] (replicate b F32.one) dv).
Proof.
  intros ->. unfold Torch.sub. rewrite binop_same_shape; try done.
  - cbn [shape data dev fill numel foldr]. rewrite Nat.mul_1_r. f_equal. f_equal.
    rewrite <- (length_replicate b F32.zero) at 1 3.
    apply zip_with_const_l. by apply Forall_replicate.
  - unfold well_formed. cbn. by rewrite length_replicate.
  - unfold well_formed. cbn. rewrite length_replicate. lia.
Qed.

(** C8, as the code has it: for a non-empty mask list whose last mask has
    a first dimension [b], no dimension of size 0, finite values only and
    lies on the device of the label, [mask_pair_to_label] of the list with
    itself is the vector of [b] ones, in whatever order the mean adds. *)
Theorem mask_pair_identical ord prefix last device b rest :
  shape last = b :: rest ->
  numel (shape last) <> 0%nat ->
  well_formed last ->
  Forall (fun v => F32.is_real v = true) (data last) ->
  dev last = default cpu device ->
  mask_pair_to_label ord (prefix ++ [last]) (prefix ++ [last]) device
    = Ok (Tensor [b] (replicate b F32.one) (dev last)).
Proof.
  intros Hs Hn Hwf Hreal Hdev. unfold mask_pair_to_label.
  rewrite index_last. cbn [res_bind]. rewrite Hs.
  change (Py.index (b :: rest) 0) with (@Ok nat exn b). cbn [res_bind].
  destruct (index_last_nonempty (b :: rest)) as [lst ->]; [done|]. cbn [res_bind].
  unfold Torch.sub at 1. rewrite (binop_same_shape F32.sub last last) by done.
  cbn [res_bind]. rewrite half_abs_diff_zeros by done.
  rewrite Hs in Hn |- *. cbn [numel foldr] in Hn. fold (numel rest) in Hn.
  rewrite view_rows_batch by done. cbn [res_bind].
  rewrite Hwf, Hs. cbn [numel foldr]. fold (numel rest).
  rewrite mean_dim1_zeros by lia. cbn [res_bind].
  by apply ones_minus_zeros.
Qed.

Lemma mask_pair_identical_witness :
  shape (Examples.pixels [2; 1; 8; 8]%nat) = [2; 1; 8; 8]%nat /\
  numel (shape (Examples.pixels [2; 1; 8; 8]%nat)) <> 0%nat /\
  well_formed (Examples.pixels [2; 1; 8; 8]%nat) /\
  Forall (fun v => F32.is_real v = true) (data (Examples.pixels [2; 1; 8; 8]%nat)) /\
  dev (Examples.pixels [2; 1; 8; 8]%nat) = default cpu None /\
  mask_pair_to_label Examples.left_to_right
    ([Examples.pixels [2; 1; 4; 4]%nat] ++ [Examples.pixels [2; 1; 8; 8]%nat])
    ([Examples.pixels [2; 1; 4; 4]%nat] ++ [Examples.pixels [2; 1; 8; 8]%nat]) None
  = Ok (Tensor [2%nat] (replicate 2 F32.one) cpu).
Proof.
  assert (H1 : shape (Examples.pixels [2; 1; 8; 8]%nat) = [2; 1; 8; 8]%nat) by reflexivity.
  assert (H2 : numel (shape (Examples.pixels [2; 1; 8; 8]%nat)) <> 0%nat) by (vm_compute; lia).
  assert (H3 : well_formed (Examples.pixels [2; 1; 8; 8]%nat)) by reflexivity.
  assert (H4 : Forall (fun v => F32.is_real v = true)
                 (data (Examples.pixels [2; 1; 8; 8]%nat)))
    by (vm_compute; repeat constructor).
  assert (H5 : dev (Examples.pixels [2; 1; 8; 8]%nat) = default cpu None) by reflexivity.
  do 5 (split; [assumption|]).
  exact (mask_pair_identical Examples.left_to_right [Examples.pixels [2; 1; 4; 4]%nat]
           (Examples.pixels [2; 1; 8; 8]%nat) None 2 [1; 8; 8]%nat H1 H2 H3 H4 H5).
Defined.

(** C8 as stated fails: an infinite value gives a NaN label, and so does
    a mask with an empty row, whose mean is 0/0; there is no label at all
    for the empty list, for a mask without dimensions, for a mask whose
    first dimension is 0 and for a mask that is not on the device of the
    label. *)
Lemma mask_pair_identical_counterexample :
  mask_pair_to_label Examples.left_to_right [Tensor [1%nat] [S754_infinity false] cpu]
    [Tensor [1%nat] [S754_infinity false] cpu] None
    = Ok (Tensor [1%nat] [S754_nan] cpu) /\
  mask_pair_to_label Examples.left_to_right [Tensor [2; 0]%nat [] cpu]
    [Tensor [2; 0]%nat [] cpu] None
    = Ok (Tensor [2%nat] [S754_nan; S754_nan] cpu) /\
  mask_pair_to_label Examples.left_to_right [] [] None = Error IndexError /\
  mask_pair_to_label Examples.left_to_right [Tensor [] [F32.one] cpu]
    [Tensor [] [F32.one] cpu] None
    = Error IndexError /\
  mask_pair_to_label Examples.left_to_right [Tensor [0; 3]%nat [] cpu]
    [Tensor [0; 3]%nat [] cpu] None
    = Error RuntimeError /\
  mask_pair_to_label Examples.left_to_right [Tensor [1%nat] [F32.one] (cuda 0)]
    [Tensor [1%nat] [F32.one] (cuda 0)] None
    = Error RuntimeError.
Proof. repeat split; reflexivity. Qed.
End mask_pair_claims.

(** ** weights_init *)

Module weights_init_claims.

Lemma normal__returns w mean std r :
  exists w',
    TorchRandom.normal_ w mean std r = Ok (w', torch_advance (Torch.numel (shape w)) r) /\
    shape w' = shape w /\ dev w' = dev w.
Proof. eexists. split; [reflexivity|]. done. Qed.

Lemma weight_is_not_bias : "weight" <> "bias".
Proof. done. Qed.

(** The three branches of [weights_init]. *)
Lemma weights_init_other m r :
  Py.find (class_name m) "Conv" = -1 -> Py.find (class_name m) "BatchNorm" = -1 ->
  weights_init m r = (m, r, Ok tt).
Proof. unfold weights_init. intros -> ->. reflexivity. Qed.

Lemma weights_init_conv m r :
  Py.find (class_name m) "Conv" <> -1 ->
  weights_init m r =
    match params m !! "weight" with
    | None => (m, r, Error AttributeError)
    | Some w =>
        match TorchRandom.normal_ w Py.zero Py.fiftieth r with
        | Ok (w', r') => (set_param m "weight" w', r', Ok tt)
        | Error e => (m, r, Error e)
        end
    end.
Proof.
  intros H. unfold weights_init.
  by destruct (Z.eqb_spec (Py.find (class_name m) "Conv") (-1)).
Qed.

Lemma weights_init_batchnorm m r :
  Py.find (class_name m) "Conv" = -1 -> Py.find (class_name m) "BatchNorm" <> -1 ->
  weights_init m r =
    match params m !! "weight" with
    | None => (m, r, Error AttributeError)
    | Some w =>
        match TorchRandom.normal_ w Py.one Py.fiftieth r with
        | Ok (w', r') =>
            match params m !! "bias" with
            | None => (set_param m "weight" w', r', Error AttributeError)
            | Some b =>
                (set_param (set_param m "weight" w') "bias"
                   (TorchRandom.constant_ b Py.zero), r', Ok tt)
            end
        | Error e => (m, r, Error e)
        end
    end.
Proof.
  intros H1 H2. unfold weights_init. rewrite H1.
  destruct (Z.eqb_spec (Py.find (class_name m) "BatchNorm") (-1)); [done|].
  change (negb (-1 =? -1)) with false. cbn [negb].
  destruct (params m !! "weight") as [w|]; [|done].
  destruct (TorchRandom.normal_ w Py.one Py.fiftieth r) as [[w' r']|e]; [|done].
  cbn [set_param params].
  by rewrite (lookup_insert_ne (params m) "weight" "bias" w' weight_is_not_bias).
Qed.

(** C9: [weights_init] leaves a layer whose class name contains neither
    "Conv" nor "BatchNorm" as it is; for a name with "BatchNorm" and
    without "Conv" nothing but the weight and the bias changes, the weight
    becoming normal(1, 0.02) variates and the bias 0; for a name with
    "Conv" nothing but the weight changes, which becomes normal(0, 0.02)
    variates. *)
Theorem weights_init_frame m r :
  (Py.find (class_name m) "Conv" = -1 -> Py.find (class_name m) "BatchNorm" = -1 ->
   weights_init m r = (m, r, Ok tt)) /\
  (Py.find (class_name m) "Conv" = -1 -> Py.find (class_name m) "BatchNorm" <> -1 ->
   class_name (weights_init m r).1.1 = class_name m /\
   (forall name, name <> "weight" -> name <> "bias" ->
      params (weights_init m r).1.1 !! name = params m !! name) /\
   (forall w b, params m !! "weight" = Some w -> params m !! "bias" = Some b ->
      exists w' r',
        TorchRandom.normal_ w Py.one Py.fiftieth r = Ok (w', r') /\
        shape w' = shape w /\
        weights_init m r =
          (Layer (class_name m)
             (<["bias" := TorchRandom.constant_ b Py.zero]> (<["weight" := w']> (params m))),
           r', Ok tt))) /\
  (Py.find (class_name m) "Conv" <> -1 ->
   class_name (weights_init m r).1.1 = class_name m /\
   (forall name, name <> "weight" ->
      params (weights_init m r).1.1 !! name = params m !! name) /\
   (forall w, params m !! "weight" = Some w ->
      exists w' r',
        TorchRandom.normal_ w Py.zero Py.fiftieth r = Ok (w', r') /\
        shape w' = shape w /\
        weights_init m r = (Layer (class_name m) (<["weight" := w']> (params m)), r', Ok tt))).
Proof.
  split; [apply weights_init_other|]. split.
  - intros H1 H2. rewrite (weights_init_batchnorm m r H1 H2).
    destruct (params m !! "weight") as [w|] eqn:Ew.
    2:{ split; [done|]. split; [done|]. intros w b Hw. discriminate Hw. }
    destruct (normal__returns w Py.one Py.fiftieth r) as (w' & Hn & Hs & _). rewrite Hn.
    destruct (params m !! "bias") as [b|] eqn:Eb; cbn [fst set_param params class_name].
    + split; [done|]. split.
      * intros name Hw Hb.
        rewrite (lookup_insert_ne _ "bias" name) by done.
        by rewrite (lookup_insert_ne _ "weight" name).
      * intros w0 b0 [= <-] [= <-]. eauto.
    + split; [done|]. split.
      * intros name Hw Hb. by rewrite (lookup_insert_ne _ "weight" name).
      * intros w0 b0 _ Hb. discriminate Hb.
  - intros H. rewrite (weights_init_conv m r H).
    destruct (params m !! "weight") as [w|] eqn:Ew.
    2:{ split; [done|]. split; [done|]. intros w Hw. discriminate Hw. }
    destruct (normal__returns w Py.zero Py.fiftieth r) as (w' & Hn & Hs & _). rewrite Hn.
    cbn [fst set_param params class_name].
    split; [done|]. split.
    + intros name Hw. by rewrite (lookup_insert_ne _ "weight" name).
    + intros w0 [= <-]. eauto.
Qed.

Lemma weights_init_frame_witness :
  Py.find (class_name Examples.linear) "Conv" = -1 /\
  Py.find (class_name Examples.linear) "BatchNorm" = -1 /\
  weights_init Examples.linear Examples.generator
    = (Examples.linear, Examples.generator, Ok tt) /\
  Py.find (class_name Examples.batchnorm) "Conv" = -1 /\
  Py.find (class_name Examples.batchnorm) "BatchNorm" <> -1 /\
  params (weights_init Examples.batchnorm Examples.generator).1.1 !! "running_mean"
    = params Examples.batchnorm !! "running_mean" /\
  Py.find (class_name Examples.conv) "Conv" <> -1 /\
  params (weights_init Examples.conv Examples.generator).1.1 !! "bias"
    = params Examples.conv !! "bias".
Proof.
  assert (H1 : Py.find (class_name Examples.linear) "Conv" = -1) by reflexivity.
  assert (H2 : Py.find (class_name Examples.linear) "BatchNorm" = -1) by reflexivity.
  assert (H3 : Py.find (class_name Examples.batchnorm) "Conv" = -1) by reflexivity.
  assert (H4 : Py.find (class_name Examples.batchnorm) "BatchNorm" <> -1)
    by (vm_compute; discriminate).
  assert (H5 : Py.find (class_name Examples.conv) "Conv" <> -1)
    by (vm_compute; discriminate).
  split; [exact H1|]. split; [exact H2|].
  split; [exact (proj1 (weights_init_frame Examples.linear Examples.generator) H1 H2)|].
  split; [exact H3|]. split; [exact H4|].
  split.
  { destruct (weights_init_frame Examples.batchnorm Examples.generator) as (_ & Hb & _).
    destruct (Hb H3 H4) as (_ & Hframe & _). apply Hframe; discriminate. }
  split; [exact H5|].
  destruct (weights_init_frame Examples.conv Examples.generator) as (_ & _ & Hc).
  destruct (Hc H5) as (_ & Hframe & _). apply Hframe; discriminate.
Defined.
End weights_init_claims.

(** ** sample_mask *)

Module sample_mask_facts.
Import Torch Torch_facts.

Lemma numel_ones k s : numel (replicate k 1%nat ++ s) = numel s.
Proof. unfold numel. induction k as [|k IH]; simpl; [done | lia]. Qed.

Lemma length_concat_const {A} (n k : nat) (ls : list (list A)) :
  length ls = k -> Forall (fun l => length l = n) ls -> length (concat ls) = (k * n)%nat.
Proof.
  intros <- H. induction H as [|l ls Hl _ IH]; simpl; [done|].
  rewrite length_app. lia.
Qed.

Lemma expand_length {A} (src : list nat) : forall tgt (d d' : list A),
  length d = numel src -> expand src tgt d = Ok d' -> length d' = numel tgt.
Proof.
  induction src as [|s src IH]; intros [|n tgt] d d' Hd H; simpl in H; try discriminate.
  - by injection H as <-.
  - simpl in Hd. fold (numel src) in Hd. simpl. fold (numel tgt).
    destruct (Nat.eqb_spec s n) as [->|_].
    + apply res_bind_Ok in H as (parts & Hparts & H). injection H as <-.
      apply length_concat_const.
      * apply res_mapM_length in Hparts. by rewrite Hparts, chunks_length.
      * eapply (res_mapM_Forall _ (fun c => length c = numel src)); [|by apply chunks_each|done].
        intros c c' Hc Hc'. by eapply IH.
    + destruct (s =? 1)%nat eqn:E; [|discriminate]. apply Nat.eqb_eq in E as ->.
      apply res_bind_Ok in H as (part & Hpart & H). injection H as <-.
      apply length_concat_const; [by rewrite length_replicate|].
      apply Forall_replicate. eapply IH; [|done]. lia.
Qed.

Lemma broadcast_to_length t tgt d' :
  well_formed t -> broadcast_to t tgt = Ok d' -> length d' = numel tgt.
Proof.
  unfold broadcast_to. intros Hwf H. destruct (_ <? _)%nat; [discriminate|].
  eapply expand_length; [|done]. by rewrite numel_ones.
Qed.

(** *** Writing one slice *)

Lemma select_update {A} (d upd : list A) (n st i j : nat) :
  length d = (n * st)%nat -> length upd = st -> (i < n)%nat ->
  take st (drop (j * st) (take (i * st) d ++ upd ++ drop (S i * st) d))
    = if decide (j = i) then upd else take st (drop (j * st) d).
Proof.
  intros Hd Hu Hi.
  assert (Hlt : length (take (i * st) d) = (i * st)%nat) by (rewrite length_take; nia).
  destruct (decide (j = i)) as [->|Hne].
  - rewrite drop_app_length' by done. rewrite take_app_length' by done. done.
  - apply list_eq. intros q.
    destruct (decide (q < st)%nat) as [Hq|Hq].
    2:{ by rewrite !lookup_take_ge by lia. }
    rewrite !lookup_take_lt, !lookup_drop by done.
    destruct (decide (j < i)%nat).
    + rewrite lookup_app_l by nia. apply lookup_take_lt. nia.
    + rewrite lookup_app_r by nia. rewrite lookup_app_r by nia.
      rewrite lookup_drop. f_equal. nia.
Qed.

Lemma length_select t n rest i :
  well_formed t -> shape t = n :: rest -> (i < n)%nat -> length (select t i) = numel rest.
Proof.
  unfold well_formed, select. intros Hwf Hs Hi. rewrite Hs in *. cbn [tail].
  simpl in Hwf. fold (numel rest) in Hwf. rewrite length_take, length_drop. nia.
Qed.

Lemma well_formed_to t d : well_formed t -> well_formed (Torch.to t d).
Proof. by destruct d. Qed.

(** [self[i,:,:,:] += other] replaces slice [i] by its sum with [other],
    broadcast to the shape of the slice, and nothing else. *)
Lemma iadd_select_spec mk i other mk' :
  well_formed mk -> well_formed other ->
  iadd_select mk i other = Ok mk' ->
  shape mk' = shape mk /\ well_formed mk' /\
  exists xb,
    broadcast_to other (tail (shape mk)) = Ok xb /\
    forall j, select mk' j
              = if decide (j = i) then zip_with F32.add (select mk i) xb else select mk j.
Proof.
  intros Hwf Hother H. unfold iadd_select in H.
  destruct (shape mk) as [|n rest] eqn:Hs; [discriminate|].
  destruct (_ || _) eqn:Hguard; [discriminate|].
  apply orb_false_elim in Hguard as [_ Hi]. apply Nat.leb_gt in Hi.
  apply res_bind_Ok in H as (upd & Hupd & H). injection H as <-.
  unfold iadd, inplace in Hupd. destruct (negb _); [discriminate|].
  apply res_bind_Ok in Hupd as (xb & Hxb & Hupd). injection Hupd as <-.
  cbn [shape data dev] in *.
  pose proof (length_select mk n rest i Hwf Hs Hi) as Hsel.
  pose proof (broadcast_to_length _ _ _ Hother Hxb) as Hlen.
  assert (Hd : length (data mk) = (n * numel rest)%nat).
  { unfold well_formed in Hwf. rewrite Hs in Hwf. exact Hwf. }
  assert (Hz : length (zip_with F32.add (select mk i) xb) = numel rest).
  { rewrite length_zip_with. lia. }
  split; [done|]. split.
  { unfold well_formed. cbn [shape data]. simpl. fold (numel rest).
    rewrite !length_app, length_take, length_drop, Hz. nia. }
  exists xb. split; [done|]. intros j.
  unfold select at 1. cbn [shape data tail].
  rewrite (select_update (data mk) _ n (numel rest) i j) by done.
  destruct (decide (j = i)); [done|]. unfold select. by rewrite Hs.
Qed.

Lemma index_elem {A} (l : list A) (i : Z) (x : A) : Py.index l i = Ok x -> x ∈ l.
Proof.
  unfold Py.index. destruct (_ || _); [discriminate|].
  destruct (l !! _) as [y|] eqn:E; [|discriminate]. intros [= <-].
  by eapply list_elem_of_lookup_2.
Qed.

(** The inner loop over [enumerate(masks)]. *)
Lemma add_example_spec io realdata device i n : forall masks k0 masks',
  add_example io realdata device i n k0 masks = Ok masks' ->
  length masks' = length masks /\
  forall k mk, masks !! k = Some mk ->
    exists mk' item real,
      masks' !! k = Some mk' /\
      flower_dataset.__getitem__ io realdata n = Ok item /\
      Py.index item.2 (Z.of_nat (k0 + k)) = Ok real /\
      iadd_select mk i (Torch.to real device) = Ok mk'.
Proof.
  induction masks as [|mask rest IH]; intros k0 masks' H; simpl in H.
  - injection H as <-. split; [done|]. intros k mk Hk. done.
  - apply res_bind_Ok in H as (item & Hitem & H).
    apply res_bind_Ok in H as (real & Hreal & H).
    apply res_bind_Ok in H as (mask' & Hmask & H).
    apply res_bind_Ok in H as (rest' & Hrest & H). injection H as <-.
    apply IH in Hrest as [Hlen Hrest]. split; [simpl; by rewrite Hlen|].
    intros [|k] mk Hk; simpl in Hk.
    + injection Hk as <-. exists mask', item, real. rewrite Nat.add_0_r. done.
    + destruct (Hrest k mk Hk) as (mk' & item' & real' & ? & ? & Hidx & ?).
      exists mk', item', real'. repeat split; try done.
      by replace (k0 + S k)%nat with (S k0 + k)%nat by lia.
Qed.

Lemma dims_Ok (l : list Z) (s : list nat) :
  dims l = Ok s -> s = Z.to_nat <$> l /\ Forall (fun z => 0 <= z) l.
Proof.
  unfold dims. revert s; induction l as [|z l IH]; intros s H; simpl in H.
  - by injection H as <-.
  - apply res_bind_Ok in H as (n & Hn & H). apply res_bind_Ok in H as (s' & Hs' & H).
    injection H as <-. destruct (Z.ltb_spec z 0); [discriminate|]. injection Hn as <-.
    apply IH in Hs' as [-> Hl]. split; [done | by constructor].
Qed.

(** The noise tensors: one per size, of shape (batch_size, 1, size, size),
    every element a normal variate times the noise level.  Only PyTorch's
    generator advances. *)
Lemma noise_masks_spec bs lvl device : forall sizes r noise r1,
  noise_masks bs sizes lvl device r = Ok (noise, r1) ->
  numpy_int r1 = numpy_int r /\ numpy_pos r1 = numpy_pos r /\
  torch_normal r1 = torch_normal r /\
  length noise = length sizes /\ Forall well_formed noise /\
  forall k size nk, sizes !! k = Some size -> noise !! k = Some nk ->
    shape nk = [Z.to_nat bs; 1%nat; Z.to_nat size; Z.to_nat size] /\
    exists p, data nk = (fun z => F32.mul z (F32.round lvl))
                          <$> (torch_normal r <$> seq p (numel (shape nk))).
Proof.
  unfold noise_masks.
  induction sizes as [|size sizes IH]; intros r noise r1 H; simpl in H.
  - injection H as <- <-. repeat split; try done. 
  - apply M_bind_Ok in H as (nk & ra & Hnk & H).
    apply M_bind_Ok in H as (rest & rb & Hrest & H). injection H as <- <-.
    apply M_bind_Ok in Hnk as (z & rz & Hz & Hnk). injection Hnk as <- <-.
    unfold TorchRandom.randn in Hz. apply M_bind_Ok in Hz as (s & rs & Hs & Hz).
    apply M_lift_Ok in Hs as [Hs ->]. apply dims_Ok in Hs as [-> _].
    unfold TorchRandom.draw in Hz. injection Hz as <- <-.
    apply IH in Hrest as (Hi & Hp & Hn & Hlen & Hwf & Hk).
    repeat split; try done.
    + simpl. by rewrite Hlen.
    + constructor; [|done]. unfold well_formed, mul_scalar, map. cbn [shape data].
      by rewrite !length_fmap, length_seq.
    + destruct k as [|k]; simpl in *.
      * by injection H as <-; injection H0 as <-.
      * by destruct (Hk k size0 nk H H0).
    + destruct k as [|k]; simpl in *.
      * injection H as <-; injection H0 as <-. by exists (torch_pos r).
      * by destruct (Hk k size0 nk H H0).
Qed.

(** The outer loop over the batch elements [a .. a+cnt-1], started on the
    masks [cur]. *)
Lemma batch_loop_spec io realdata device cnt : forall a cur ra fin r',
  (forall n item, flower_dataset.__getitem__ io realdata n = Ok item ->
                  Forall well_formed item.2) ->
  Forall well_formed cur ->
  M_for (seq a cnt)
    (fun i masks =>
       let! n := NpRandom.randint (flower_dataset.__len__ realdata) in
       M_lift (add_example io realdata device i n 0 masks))
    cur ra = Ok (fin, r') ->
  length fin = length cur /\
  forall k mk, cur !! k = Some mk ->
    exists mk',
      fin !! k = Some mk' /\ shape mk' = shape mk /\ well_formed mk' /\
      forall j,
        if decide (a <= j < a + cnt)%nat then
          let n := numpy_int ra (numpy_pos ra + (j - a))%nat
                   mod flower_dataset.__len__ realdata in
          0 <= n < flower_dataset.__len__ realdata /\
          exists item real xb,
            flower_dataset.__getitem__ io realdata n = Ok item /\
            Py.index item.2 (Z.of_nat k) = Ok real /\
            broadcast_to (Torch.to real device) (tail (shape mk)) = Ok xb /\
            select mk' j = zip_with F32.add (select mk j) xb
        else select mk' j = select mk j.
Proof.
  induction cnt as [|cnt IH]; intros a cur ra fin r' Hdata Hcur H; simpl in H.
  - injection H as <- <-. split; [done|]. intros k mk Hk. exists mk.
    repeat split; try done; [by eapply Forall_lookup_1|].
    intros j. destruct (decide _); [lia | done].
  - apply M_bind_Ok in H as (mid & rb & Hbody & H).
    apply M_bind_Ok in Hbody as (n & rn & Hn & Hbody).
    apply M_lift_Ok in Hbody as [Hadd ->].
    unfold NpRandom.randint in Hn.
    destruct (Z.leb_spec (flower_dataset.__len__ realdata) 0) as [|Hpos]; [discriminate|].
    injection Hn as <- <-.
    apply add_example_spec in Hadd as [Hlen Hadd].
    assert (Hmid : Forall well_formed mid).
    { apply Forall_lookup_2. intros k mk1 Hk.
      destruct (lookup_lt_is_Some_2 cur k) as [mk Hmk];
        [rewrite <- Hlen; by eapply lookup_lt_Some|].
      destruct (Hadd k mk Hmk) as (mk1' & item & real & Hk' & Hitem & Hreal & Hsel).
      rewrite Hk in Hk'. injection Hk' as <-.
      eapply iadd_select_spec in Hsel as (_ & Hwf & _); [done|by eapply Forall_lookup_1|].
      apply well_formed_to. eapply Forall_forall; [by eapply Hdata|]. by eapply index_elem. }
    apply IH in H as [Hlen' H]; [|done..].
    split; [by rewrite Hlen', Hlen|].
    intros k mk Hmk.
    destruct (Hadd k mk Hmk) as (mk1 & item & real & Hk1 & Hitem & Hreal & Hsel).
    assert (Hwfr : well_formed (Torch.to real device)).
    { apply well_formed_to. eapply Forall_forall; [by eapply Hdata|]. by eapply index_elem. }
    assert (Hwfm : well_formed mk) by (by apply (Forall_lookup_1 well_formed cur k mk)).
    destruct (iadd_select_spec _ _ _ _ Hwfm Hwfr Hsel) as (Hs1 & Hwf1 & xb & Hxb & Hsel').
    destruct (H k mk1 Hk1) as (mk' & Hfin & Hs' & Hwf' & Hj).
    exists mk'. repeat split; [done | congruence | done |].
    intros j. specialize (Hj j). specialize (Hsel' j).
    destruct (decide (a <= j < a + S cnt)%nat) as [Hin|Hout].
    + destruct (decide (j = a)) as [->|Hne].
      * destruct (decide (S a <= a < S a + cnt)%nat); [lia|].
        rewrite Nat.sub_diag, Nat.add_0_r.
        split; [by apply Z.mod_pos_bound|].
        exists item, real, xb. repeat split; try done. congruence.
      * destruct (decide (S a <= j < S a + cnt)%nat); [|lia].
        cbn [numpy_advance numpy_int numpy_pos] in Hj.
        replace (S (numpy_pos ra) + (j - S a))%nat with (numpy_pos ra + (j - a))%nat in Hj
          by lia.
        destruct Hj as (Hrange & item' & real' & xb' & ? & ? & Hxb' & Hj).
        split; [done|]. exists item', real', xb'. repeat split; try done.
        -- by rewrite <- Hs1.
        -- by rewrite Hj, Hsel'.
    + destruct (decide (S a <= j < S a + cnt)%nat); [lia|].
      destruct (decide (j = a)); [lia|]. congruence.
Qed.
End sample_mask_facts.

Module sample_mask_claims.
Import Torch Torch_facts sample_mask_facts.

(** C5: for every batch element [i], [sample_mask] draws one example
    index [n] of the dataset with [np.random.randint] and, for every
    resolution [k], adds the [k]-th mask of that example to slice [i] of
    the [k]-th noise tensor: in the result, slice [i] of [masks[k]] is
    slice [i] of the noise tensor (normal variates times the noise level)
    plus [realdata[n][1][k]], with the same [n] for every [k]. *)
Theorem sample_mask_adds_example io bs sizes realdata lvl device r masks r' :
  (forall n item, flower_dataset.__getitem__ io realdata n = Ok item ->
                  Forall well_formed item.2) ->
  sample_mask io bs sizes realdata lvl device r = Ok (masks, r') ->
  exists noise r1,
    noise_masks bs sizes lvl device r = Ok (noise, r1) /\
    length masks = length sizes /\
    forall k size, sizes !! k = Some size ->
      exists mk nk,
        masks !! k = Some mk /\ noise !! k = Some nk /\
        shape mk = [Z.to_nat bs; 1%nat; Z.to_nat size; Z.to_nat size] /\
        shape nk = shape mk /\
        (exists p, data nk = (fun z => F32.mul z (F32.round lvl))
                               <$> (torch_normal r <$> seq p (numel (shape nk)))) /\
        forall i, (i < Z.to_nat bs)%nat ->
          let n := numpy_int r (numpy_pos r + i)%nat mod flower_dataset.__len__ realdata in
          0 <= n < flower_dataset.__len__ realdata /\
          exists item real xb,
            flower_dataset.__getitem__ io realdata n = Ok item /\
            Py.index item.2 (Z.of_nat k) = Ok real /\
            broadcast_to (Torch.to real device) [1%nat; Z.to_nat size; Z.to_nat size] = Ok xb /\
            select mk i = zip_with F32.add (select nk i) xb.
Proof.
  intros Hdata H. unfold sample_mask in H.
  apply M_bind_Ok in H as (noise & r1 & Hnoise & Hloop).
  pose proof (noise_masks_spec _ _ _ _ _ _ _ Hnoise) as (Hint & Hpos & _ & Hlen & Hwf & Hshape).
  pose proof (batch_loop_spec _ _ _ _ _ _ _ _ _ Hdata Hwf Hloop) as [Hlen' Hmasks].
  exists noise, r1. split; [done|]. split; [congruence|].
  intros k size Hk.
  destruct (lookup_lt_is_Some_2 noise k) as [nk Hnk];
    [rewrite Hlen; by eapply lookup_lt_Some|].
  destruct (Hshape k size nk Hk Hnk) as [Hs Hd].
  destruct (Hmasks k nk Hnk) as (mk & Hmk & Hs' & _ & Hsel).
  exists mk, nk.
  split; [done|]. split; [done|]. split; [congruence|]. split; [congruence|].
  split; [done|].
  intros i Hi. specialize (Hsel i). destruct (decide _) as [_|]; [|lia].
  rewrite Hint, Hpos, Nat.sub_0_r, Hs in Hsel. exact Hsel.
Qed.

Lemma dataset_masks_well_formed n item :
  flower_dataset.__getitem__ Examples.files Examples.dataset n = Ok item ->
  Forall well_formed item.2.
Proof.
  unfold flower_dataset.__getitem__. cbn [flower_dataset.in_memory Examples.dataset].
  intros H. apply res_bind_Ok in H as (img & _ & H).
  apply res_bind_Ok in H as (ms & Hms & H). injection H as <-. cbn [snd].
  apply index_elem in Hms. cbn [flower_dataset.mask Examples.dataset] in Hms.
  repeat (apply elem_of_cons in Hms as [->|Hms]); [| |by apply elem_of_nil in Hms];
    repeat constructor.
Qed.

Lemma sample_mask_adds_example_witness :
  exists masks r',
    sample_mask Examples.files 2 [1; 2] Examples.dataset Py.tenth None Examples.generator
      = Ok (masks, r') /\
    exists noise r1,
      noise_masks 2 [1; 2] Py.tenth None Examples.generator = Ok (noise, r1) /\
      length masks = length [1; 2] /\
      forall k size, [1; 2] !! k = Some size ->
        exists mk nk,
          masks !! k = Some mk /\ noise !! k = Some nk /\
          shape mk = [Z.to_nat 2; 1%nat; Z.to_nat size; Z.to_nat size] /\
          shape nk = shape mk /\
          (exists p, data nk = (fun z => F32.mul z (F32.round Py.tenth))
                                 <$> (torch_normal Examples.generator
                                        <$> seq p (numel (shape nk)))) /\
          forall i, (i < Z.to_nat 2)%nat ->
            let n := numpy_int Examples.generator (numpy_pos Examples.generator + i)%nat
                     mod flower_dataset.__len__ Examples.dataset in
            0 <= n < flower_dataset.__len__ Examples.dataset /\
            exists item real xb,
              flower_dataset.__getitem__ Examples.files Examples.dataset n = Ok item /\
              Py.index item.2 (Z.of_nat k) = Ok real /\
              broadcast_to (Torch.to real None) [1%nat; Z.to_nat size; Z.to_nat size]
                = Ok xb /\
              select mk i = zip_with F32.add (select nk i) xb.
Proof.
  do 2 eexists. split; [lazy; reflexivity|].
  eapply (sample_mask_adds_example Examples.files 2 [1; 2] Examples.dataset Py.tenth None
            Examples.generator).
  - exact dataset_masks_well_formed.
  - lazy; reflexivity.
Defined.
End sample_mask_claims.

(** * Further properties *)

(** ** flower_dataset: masks, construction and lookup *)

Module flower_dataset_extras.
Import flower_dataset flower_dataset_facts flower_dataset_claims.

Lemma ones_negated size :
  0 <= size ->
  (let* o := Torch.ones [1; size; size] None in Ok (Torch.neg o))
    = Ok (empty_mask (Z.to_nat size)).
Proof.
  intros Hs. unfold Torch.ones, Torch.dims. simpl.
  destruct (Z.ltb_spec size 0); [lia|]. simpl.
  unfold Torch.neg, Torch.map, Torch.fill, empty_mask. cbn [shape data dev default].
  rewrite fmap_replicate. do 2 f_equal.
  unfold Torch.numel. cbn [foldr]. change (Z.to_nat 1) with 1%nat. f_equal. lia.
Qed.

Lemma ones_negative size :
  size < 0 ->
  (let* o := Torch.ones [1; size; size] None in Ok (Torch.neg o)) = Error RuntimeError.
Proof.
  intros Hs. unfold Torch.ones, Torch.dims. simpl.
  by destruct (Z.ltb_spec size 0); [|lia].
Qed.

(** X1: [get_empty_masks] returns a list exactly when [mask_sizes] is a
    list of non-negative sizes; the list then holds, for every size in
    order, the CPU tensor of shape (1, size, size) filled with -1. *)
Theorem get_empty_masks_characterised self masks :
  get_empty_masks self = Ok masks <->
  exists sizes,
    mask_sizes self = Some sizes /\ Forall (fun z => 0 <= z) sizes /\
    masks = (fun size => empty_mask (Z.to_nat size)) <$> sizes.
Proof.
  unfold get_empty_masks, for_sizes. split.
  - destruct (mask_sizes self) as [sizes|]; [|discriminate].
    intros H. exists sizes. split; [done|].
    revert masks H. induction sizes as [|size sizes IH]; intros masks H; simpl in H.
    + injection H as <-. by split.
    + apply res_bind_Ok in H as (m & Hm & H). apply res_bind_Ok in H as (ms & Hms & H).
      injection H as <-. destruct (IH ms Hms) as [Hall ->].
      destruct (Z.ltb_spec size 0) as [Hneg|Hpos].
      * by rewrite ones_negative in Hm.
      * rewrite ones_negated in Hm by done. injection Hm as <-. split; [by constructor|done].
  - intros (sizes & -> & Hall & ->).
    induction Hall as [|size sizes Hs _ IH]; simpl; [done|].
    rewrite ones_negated by done. simpl. by rewrite IH.
Qed.

Lemma get_empty_masks_characterised_witness :
  get_empty_masks Examples.dataset
    = Ok [empty_mask 1; empty_mask 2].
Proof.
  apply (get_empty_masks_characterised Examples.dataset). exists [1; 2].
  split; [reflexivity|]. split; [repeat constructor; lia | reflexivity].
Defined.

(** One round of the loop on an instance without mask sizes. *)
Lemma load_without_sizes io paths : forall i self,
  mask_sizes self = None ->
  Forall (fun p => exists a, imread io p = Ok a) paths ->
  Exists (fun p => has_three_dims io p = true) paths ->
  load io None i paths self = Error TypeError.
Proof.
  induction paths as [|p paths IH]; intros i self Hs Hp He; [by apply Exists_nil in He|].
  apply Forall_cons_1 in Hp as [[a Ha] Hp]. simpl. rewrite Ha. simpl.
  destruct (length (shape a) =? 3)%nat eqn:E; simpl.
  - unfold eager_masks, get_empty_masks, for_sizes. simpl. by rewrite Hs.
  - apply IH; [done..|]. apply Exists_cons in He as [He|He]; [|done].
    unfold has_three_dims in He. rewrite Ha in He. congruence.
Qed.

(** X2: with the default [mask_sizes=None] an eager construction raises
    TypeError as soon as one of the (decodable) images has three
    dimensions and is kept. *)
Theorem eager_without_sizes_raises io paths tr mtr :
  Forall (fun p => exists a, imread io p = Ok a) paths ->
  Exists (fun p => has_three_dims io p = true) paths ->
  __init__ io paths None None tr mtr true = Error TypeError.
Proof. intros Hp He. unfold __init__. simpl. by apply load_without_sizes. Qed.

Lemma eager_without_sizes_raises_witness :
  __init__ Examples.files ["gray.png"; "rgb.png"] None None None None true = Error TypeError.
Proof.
  apply (eager_without_sizes_raises Examples.files ["gray.png"; "rgb.png"] None None).
  - repeat constructor; eexists; reflexivity.
  - apply Exists_cons_tl, Exists_cons_hd. reflexivity.
Defined.

Lemma load_decodes io mp paths : forall i self self',
  load io mp i paths self = Ok self' ->
  Forall (fun p => exists a, imread io p = Ok a) paths.
Proof.
  induction paths as [|p paths IH]; intros i self self' H; [done|]. simpl in H.
  apply res_bind_Ok in H as (a & Ha & H). constructor; [eauto|].
  destruct (negb _); [by eapply IH|].
  apply res_bind_Ok in H as (ms & _ & H). by eapply IH.
Qed.

(** X3: without mask paths and with non-negative mask sizes, the eager
    construction returns a dataset exactly when every image path can be
    decoded: an image that is skipped never makes it fail. *)
Theorem eager_returns_iff_decodable io paths sizes tr mtr :
  Forall (fun z => 0 <= z) sizes ->
  (exists ds, __init__ io paths None (Some sizes) tr mtr true = Ok ds) <->
  Forall (fun p => exists a, imread io p = Ok a) paths.
Proof.
  intros Hs. unfold __init__. simpl. split.
  - intros [ds H]. by eapply load_decodes.
  - intros Hp. by eapply load_returns.
Qed.

Lemma eager_returns_iff_decodable_witness :
  Forall (fun z => 0 <= z) [4] /\
  ((exists ds, __init__ Examples.files ["gray.png"; "rgba.png"] None (Some [4]) None None true
              = Ok ds) <->
  Forall (fun p => exists a, imread Examples.files p = Ok a) ["gray.png"; "rgba.png"]).
Proof.
  assert (H : Forall (fun z => 0 <= z) [4]) by (repeat constructor; lia).
  split; [exact H|].
  exact (eager_returns_iff_decodable Examples.files ["gray.png"; "rgba.png"] [4] None None H).
Defined.

Lemma load_images io mp paths : forall i self self',
  load io mp i paths self = Ok self' ->
  exists arrays,
    res_mapM (imread io) (List.filter (has_three_dims io) paths) = Ok arrays /\
    image self' = image self ++ (apply (transform self) <$> arrays).
Proof.
  induction paths as [|p paths IH]; intros i self self' H; simpl in H.
  - injection H as <-. exists []. simpl. by rewrite app_nil_r.
  - apply res_bind_Ok in H as (a & Ha & H). cbn [List.filter].
    assert (Hp : has_three_dims io p = (length (shape a) =? 3)%nat)
      by (unfold has_three_dims; by rewrite Ha).
    rewrite Hp. destruct (length (shape a) =? 3)%nat; simpl in H.
    + apply res_bind_Ok in H as (ms & _ & H).
      apply IH in H as (arrays & Harr & Himg). exists (a :: arrays).
      simpl. rewrite Ha, Harr. simpl. split; [done|].
      simpl in Himg. by rewrite Himg, <- app_assoc.
    + apply IH in H as (arrays & Harr & Himg). by exists arrays.
Qed.

(** X4: the images an eager dataset holds are the transformed decodings
    of the supplied paths that decode to three dimensions, in the order
    of the paths. *)
Theorem eager_images_in_order io paths mp sizes tr mtr ds :
  __init__ io paths mp sizes tr mtr true = Ok ds ->
  exists arrays,
    res_mapM (imread io) (List.filter (has_three_dims io) paths) = Ok arrays /\
    image ds = apply tr <$> arrays.
Proof. unfold __init__. simpl. intros H. by apply load_images in H. Qed.

Lemma eager_images_in_order_witness :
  exists ds,
    __init__ Examples.files ["rgba.png"; "gray.png"; "rgb.png"] None (Some [2]) None None true
      = Ok ds /\
    exists arrays,
      res_mapM (imread Examples.files)
        (List.filter (has_three_dims Examples.files) ["rgba.png"; "gray.png"; "rgb.png"])
        = Ok arrays /\
      image ds = apply None <$> arrays.
Proof.
  eexists. split; [reflexivity|].
  apply (eager_images_in_order Examples.files ["rgba.png"; "gray.png"; "rgb.png"] None
           (Some [2]) None None).
  reflexivity.
Defined.

Lemma load_mask_paths io mps paths : forall i self self' j p,
  load io (Some mps) i paths self = Ok self' ->
  paths !! j = Some p -> has_three_dims io p = true ->
  exists q m, mps !! (i + j)%nat = Some (Some q) /\ imread io q = Ok m.
Proof.
  induction paths as [|p0 paths IH]; intros i self self' j p H Hj Hp; [done|].
  simpl in H. apply res_bind_Ok in H as (a & Ha & H).
  destruct j as [|j]; simpl in Hj.
  - injection Hj as ->. unfold has_three_dims in Hp. rewrite Ha in Hp. rewrite Hp in H.
    simpl in H. apply res_bind_Ok in H as (ms & Hms & _).
    unfold eager_masks in Hms. apply res_bind_Ok in Hms as (q & Hq & Hms).
    apply res_bind_Ok in Hms as (m & Hm & _). destruct q as [q|]; [|discriminate].
    unfold imread_as_gray in Hm. apply res_bind_Ok in Hm as (m0 & Hm0 & _).
    rewrite index_nat in Hq by lia. rewrite Nat2Z.id in Hq.
    destruct (mps !! i) as [q'|] eqn:E; [|discriminate]. injection Hq as ->.
    exists q, m0. by rewrite Nat.add_0_r.
  - replace (i + S j)%nat with (S i + j)%nat by lia.
    destruct (negb _); [by eapply IH|].
    apply res_bind_Ok in H as (ms & _ & H). by eapply IH.
Qed.

(** X5: when an eager construction with mask paths returns, every image
    that was kept has, at its own position in [mask_paths], a path that
    is not [None] and that decodes; positions of skipped images are not
    looked at. *)
Theorem eager_kept_images_have_masks io paths mps sizes tr mtr ds j p :
  __init__ io paths (Some mps) sizes tr mtr true = Ok ds ->
  paths !! j = Some p -> has_three_dims io p = true ->
  exists q m, mps !! j = Some (Some q) /\ imread io q = Ok m.
Proof.
  unfold __init__. simpl. intros H Hj Hp.
  by destruct (load_mask_paths _ _ _ _ _ _ _ _ H Hj Hp) as (q & m & ? & ?); eauto.
Qed.

Lemma eager_kept_images_have_masks_witness :
  exists ds,
    __init__ Examples.files ["gray.png"; "rgb.png"] (Some [None; Some "gray.png"]) (Some [2])
      None None true = Ok ds /\
    ["gray.png"; "rgb.png"] !! 1%nat = Some "rgb.png" /\
    has_three_dims Examples.files "rgb.png" = true /\
    exists q m, [None; Some "gray.png"] !! 1%nat = Some (Some q) /\
                imread Examples.files q = Ok m.
Proof.
  eexists. split; [reflexivity|]. split; [reflexivity|]. split; [reflexivity|].
  eapply (eager_kept_images_have_masks Examples.files ["gray.png"; "rgb.png"]
            [None; Some "gray.png"] (Some [2]) None None); reflexivity.
Defined.

(** *** Index bounds *)

Lemma index_out_of_range {A} (l : list A) (i : Z) :
  Z.of_nat (length l) <= i \/ i < - Z.of_nat (length l) -> Py.index l i = Error IndexError.
Proof.
  intros Hi. unfold Py.index. destruct (Z.ltb_spec i 0).
  - destruct (Z.ltb_spec (i + Z.of_nat (length l)) 0); [done | lia].
  - destruct (Z.ltb_spec i 0); [lia|].
    destruct (Z.leb_spec (Z.of_nat (length l)) i); [done | lia].
Qed.

Lemma index_negative {A} (l : list A) (i : Z) :
  - Z.of_nat (length l) <= i < 0 -> Py.index l i = Py.index l (i + Z.of_nat (length l)).
Proof.
  intros Hi. unfold Py.index.
  destruct (Z.ltb_spec i 0); [|lia].
  destruct (Z.ltb_spec (i + Z.of_nat (length l)) 0) as [|_]; [lia|].
  cbn iota. destruct (Z.ltb_spec (i + Z.of_nat (length l)) 0); [lia | done].
Qed.

(** X6: an eager dataset is indexed like a Python list of its reported
    length: an index from [-len] up to [-1] gives the sample at
    [index + len], and an index outside [-len .. len-1] raises
    IndexError. *)
Theorem eager_getitem_bounds io paths mp sizes tr mtr ds :
  __init__ io paths mp sizes tr mtr true = Ok ds ->
  (forall idx, - __len__ ds <= idx < 0 ->
     __getitem__ io ds idx = __getitem__ io ds (idx + __len__ ds)) /\
  (forall idx, __len__ ds <= idx \/ idx < - __len__ ds ->
     __getitem__ io ds idx = Error IndexError).
Proof.
  intros H. apply init_eager in H as (Hin & _ & _ & _ & kept & Hi & Hm & _ & Hl).
  unfold __len__, __getitem__. rewrite Hin, Hl.
  assert (Hli : length (image ds) = length kept) by (by rewrite Hi, length_fmap).
  assert (Hlm : length (mask ds) = length kept) by (by rewrite Hm, length_fmap).
  split; intros idx Hidx.
  - rewrite (index_negative (image ds) idx), (index_negative (mask ds) idx) by lia.
    by rewrite Hli, Hlm.
  - by rewrite (index_out_of_range (image ds)) by lia.
Qed.

Lemma eager_getitem_bounds_witness :
  exists ds,
    __init__ Examples.files ["rgb.png"; "rgba.png"] None (Some [2]) None None true = Ok ds /\
    __getitem__ Examples.files ds (-1) = __getitem__ Examples.files ds (-1 + __len__ ds) /\
    __getitem__ Examples.files ds 2 = Error IndexError.
Proof.
  eexists. split; [reflexivity|].
  edestruct (eager_getitem_bounds Examples.files ["rgb.png"; "rgba.png"] None (Some [2])
               None None) as [Hneg Hout]; [reflexivity|].
  split; [apply Hneg | apply Hout]; vm_compute; [split; [discriminate|reflexivity]|].
  left. discriminate.
Defined.

(** *** Lazy lookups *)

Lemma res_mapM_ext {A B} (f g : A -> res B) (l : list A) :
  (forall x, f x = g x) -> res_mapM f l = res_mapM g l.
Proof. intros H. induction l as [|x l IH]; simpl; [done|]. by rewrite H, IH. Qed.

Lemma index_replicate {A} (n : nat) (x y : A) (i : Z) :
  Py.index (replicate n x) i = Ok y -> y = x.
Proof. intros H%sample_mask_facts.index_elem. by apply elem_of_replicate in H as [-> _]. Qed.

(** X7: a lazy lookup reads the image path and the mask path of its own
    index and nothing else: two file systems that agree on these two
    files (and on resizing) give the same result, whatever the other
    paths of the dataset decode to, or fail to decode to. *)
Theorem lazy_getitem_reads_own_paths io io' paths mp sizes tr mtr ds idx :
  __init__ io paths mp sizes tr mtr false = Ok ds ->
  (forall p, Py.index paths idx = Ok p -> imread io p = imread io' p) ->
  (forall mps q, mp = Some mps -> Py.index mps idx = Ok (Some q) ->
                 imread io q = imread io' q) ->
  (forall a rows cols, resize io a rows cols = resize io' a rows cols) ->
  __getitem__ io ds idx = __getitem__ io' ds idx.
Proof.
  unfold __init__. simpl. intros [= <-] Himg Hmask Hresize.
  unfold __getitem__. cbn [in_memory image_paths mask_paths transform].
  destruct (Py.index paths idx) as [p|e] eqn:Ep; [|done]. cbn [res_bind].
  rewrite (Himg p eq_refl). destruct (imread io' p) as [a|e]; [|done]. cbn [res_bind].
  set (mpl := match mp with
              | Some paths' => paths'
              | None => replicate (Z.to_nat (Z.of_nat (length paths))) None
              end).
  destruct (Py.index mpl idx) as [q|e] eqn:Eq; [|done]. cbn [res_bind].
  set (self := Build _ _ _ _ _ _ _ _ _).
  assert (Hlazy : lazy_masks io self q = lazy_masks io' self q); [|by rewrite Hlazy].
  unfold lazy_masks. destruct q as [q0|]; [|done].
  assert (Heq : imread io q0 = imread io' q0).
  { unfold mpl in Eq. destruct mp as [mps|]; [by eapply Hmask | by apply index_replicate in Eq]. }
  rewrite Heq. destruct (imread io' q0) as [m|]; [|done]. cbn [res_bind].
  unfold for_sizes. destruct (mask_sizes self); [|done].
  apply res_mapM_ext. intros size. unfold get_mask. by rewrite Hresize.
Qed.

Lemma lazy_getitem_reads_own_paths_witness :
  exists ds,
    __init__ Examples.files ["rgb.png"; "missing.png"] None (Some [2]) None None false
      = Ok ds /\
    __getitem__ Examples.files ds 0 = __getitem__ Examples.other_files ds 0.
Proof.
  eexists. split; [reflexivity|].
  apply (lazy_getitem_reads_own_paths Examples.files Examples.other_files
           ["rgb.png"; "missing.png"] None (Some [2]) None None).
  - reflexivity.
  - intros p [= <-]. reflexivity.
  - intros mps q [=].
  - reflexivity.
Defined.
End flower_dataset_extras.

(** ** weights_init: errors and what is preserved *)

Module weights_init_extras.
Import weights_init_claims.

(** X8: a layer whose class name asks for an initialisation but that
    has no weight makes [weights_init] raise AttributeError; the layer and
    the generator are left as they were. *)
Theorem weights_init_without_weight m r :
  Py.find (class_name m) "Conv" <> -1 \/ Py.find (class_name m) "BatchNorm" <> -1 ->
  params m !! "weight" = None ->
  weights_init m r = (m, r, Error AttributeError).
Proof.
  intros Hname Hw.
  destruct (Z.eq_dec (Py.find (class_name m) "Conv") (-1)) as [Hc|Hc].
  - destruct Hname as [|Hb]; [done|]. by rewrite weights_init_batchnorm, Hw.
  - by rewrite weights_init_conv, Hw.
Qed.

Lemma weights_init_without_weight_witness :
  (Py.find (class_name (Layer "ConvBlock" ∅)) "Conv" <> -1 \/
   Py.find (class_name (Layer "ConvBlock" ∅)) "BatchNorm" <> -1) /\
  params (Layer "ConvBlock" ∅) !! "weight" = None /\
  weights_init (Layer "ConvBlock" ∅) Examples.generator
    = (Layer "ConvBlock" ∅, Examples.generator, Error AttributeError).
Proof.
  assert (H : Py.find (class_name (Layer "ConvBlock" ∅)) "Conv" <> -1 \/
              Py.find (class_name (Layer "ConvBlock" ∅)) "BatchNorm" <> -1)
    by (left; vm_compute; discriminate).
  split; [exact H|]. split; [reflexivity|].
  exact (weights_init_without_weight (Layer "ConvBlock" ∅) Examples.generator H eq_refl).
Defined.

(** X9: on a batch-normalisation layer with a weight but without a bias
    the call raises AttributeError after it has overwritten the weight:
    the layer is left half initialised and the variates are used up. *)
Theorem weights_init_batchnorm_without_bias m r w :
  Py.find (class_name m) "Conv" = -1 -> Py.find (class_name m) "BatchNorm" <> -1 ->
  params m !! "weight" = Some w -> params m !! "bias" = None ->
  exists w',
    shape w' = shape w /\
    weights_init m r
      = (Layer (class_name m) (<["weight" := w']> (params m)),
         torch_advance (Torch.numel (shape w)) r, Error AttributeError).
Proof.
  intros Hc Hb Hw Hbias. rewrite (weights_init_batchnorm m r Hc Hb), Hw.
  destruct (normal__returns w Py.one Py.fiftieth r) as (w' & -> & Hs & _).
  rewrite Hbias. eauto.
Qed.

Lemma weights_init_batchnorm_without_bias_witness :
  Py.find (class_name Examples.batchnorm_no_bias) "Conv" = -1 /\
  Py.find (class_name Examples.batchnorm_no_bias) "BatchNorm" <> -1 /\
  params Examples.batchnorm_no_bias !! "weight" = Some (Examples.pixels [2]%nat) /\
  params Examples.batchnorm_no_bias !! "bias" = None /\
  exists w',
    shape w' = shape (Examples.pixels [2]%nat) /\
    weights_init Examples.batchnorm_no_bias Examples.generator
      = (Layer (class_name Examples.batchnorm_no_bias)
           (<["weight" := w']> (params Examples.batchnorm_no_bias)),
         torch_advance (Torch.numel (shape (Examples.pixels [2]%nat))) Examples.generator,
         Error AttributeError).
Proof.
  assert (H1 : Py.find (class_name Examples.batchnorm_no_bias) "Conv" = -1) by reflexivity.
  assert (H2 : Py.find (class_name Examples.batchnorm_no_bias) "BatchNorm" <> -1)
    by (vm_compute; discriminate).
  assert (H3 : params Examples.batchnorm_no_bias !! "weight" = Some (Examples.pixels [2]%nat))
    by reflexivity.
  assert (H4 : params Examples.batchnorm_no_bias !! "bias" = None) by reflexivity.
  do 4 (split; [assumption|]).
  exact (weights_init_batchnorm_without_bias Examples.batchnorm_no_bias Examples.generator
           (Examples.pixels [2]%nat) H1 H2 H3 H4).
Defined.

(** The layer after the call, in every case. *)
Lemma weights_init_layer_cases m r :
  (weights_init m r).1.1 = m \/
  (exists w w', params m !! "weight" = Some w /\ shape w' = shape w /\ dev w' = dev w /\
     ((weights_init m r).1.1 = set_param m "weight" w' \/
      exists b b', params m !! "bias" = Some b /\ shape b' = shape b /\ dev b' = dev b /\
        (weights_init m r).1.1 = set_param (set_param m "weight" w') "bias" b')).
Proof.
  destruct (Z.eq_dec (Py.find (class_name m) "Conv") (-1)) as [Hc|Hc].
  - destruct (Z.eq_dec (Py.find (class_name m) "BatchNorm") (-1)) as [Hb|Hb].
    + left. by rewrite weights_init_other.
    + rewrite (weights_init_batchnorm m r Hc Hb).
      destruct (params m !! "weight") as [w|] eqn:Hw; [|by left].
      destruct (normal__returns w Py.one Py.fiftieth r) as (w' & -> & Hs & Hd).
      right. exists w, w'. repeat split; try done.
      destruct (params m !! "bias") as [b|] eqn:Hbias; [|by left].
      right. exists b, (TorchRandom.constant_ b Py.zero). by repeat split.
  - rewrite (weights_init_conv m r Hc).
    destruct (params m !! "weight") as [w|] eqn:Hw; [|by left].
    destruct (normal__returns w Py.zero Py.fiftieth r) as (w' & -> & Hs & Hd).
    right. exists w, w'. repeat split; try done. by left.
Qed.

Lemma set_param_keeps m name v v' :
  params m !! name = Some v -> shape v' = shape v -> dev v' = dev v ->
  class_name (set_param m name v') = class_name m /\
  dom (params (set_param m name v')) = dom (params m) /\
  forall key t', params (set_param m name v') !! key = Some t' ->
    exists t, params m !! key = Some t /\ shape t' = shape t /\ dev t' = dev t.
Proof.
  intros Hv Hs Hd. split; [done|]. split.
  - simpl. by apply dom_insert_lookup_L.
  - intros key t' Ht'. simpl in Ht'.
    destruct (decide (name = key)) as [<-|Hne].
    + rewrite lookup_insert_eq in Ht'. injection Ht' as <-. eauto.
    + rewrite lookup_insert_ne in Ht' by done. eauto.
Qed.

(** X10: whatever the layer and however the call ends, [weights_init]
    keeps the class name and the set of parameter names, and every
    parameter keeps its shape and its device; only values change. *)
Theorem weights_init_keeps_structure m r :
  class_name (weights_init m r).1.1 = class_name m /\
  dom (params (weights_init m r).1.1) = dom (params m) /\
  forall key t', params (weights_init m r).1.1 !! key = Some t' ->
    exists t, params m !! key = Some t /\ shape t' = shape t /\ dev t' = dev t.
Proof.
  destruct (weights_init_layer_cases m r)
    as [-> | (w & w' & Hw & Hs & Hd & [-> | (b & b' & Hb & Hsb & Hdb & ->)])].
  - split; [done|]. split; [done|]. eauto.
  - by apply set_param_keeps with (v := w).
  - destruct (set_param_keeps m "weight" w w' Hw Hs Hd) as (Hc1 & Hd1 & Hk1).
    assert (Hb1 : params (set_param m "weight" w') !! "bias" = Some b).
    { simpl. by rewrite (lookup_insert_ne (params m) "weight" "bias" w' weight_is_not_bias). }
    destruct (set_param_keeps _ "bias" b b' Hb1 Hsb Hdb) as (Hc2 & Hd2 & Hk2).
    split; [congruence|]. split; [congruence|].
    intros key t' Ht'. destruct (Hk2 key t' Ht') as (t1 & Ht1 & Hs1 & Hdv1).
    destruct (Hk1 key t1 Ht1) as (t & Ht & Hs0 & Hdv0).
    exists t. split; [done|]. split; congruence.
Qed.

(** X11: the call draws from PyTorch's generator only, and only forwards:
    NumPy's generator and the streams are untouched, and the position
    moves by the number of elements of the weight when one is
    overwritten and not at all otherwise. *)
Theorem weights_init_draws m r :
  numpy_pos (weights_init m r).1.2 = numpy_pos r /\
  numpy_int (weights_init m r).1.2 = numpy_int r /\
  torch_normal (weights_init m r).1.2 = torch_normal r /\
  torch_uniform (weights_init m r).1.2 = torch_uniform r /\
  (torch_pos (weights_init m r).1.2 = torch_pos r \/
   exists w, params m !! "weight" = Some w /\
             torch_pos (weights_init m r).1.2 = (torch_pos r + Torch.numel (shape w))%nat).
Proof.
  destruct (Z.eq_dec (Py.find (class_name m) "Conv") (-1)) as [Hc|Hc].
  - destruct (Z.eq_dec (Py.find (class_name m) "BatchNorm") (-1)) as [Hb|Hb].
    + rewrite weights_init_other by done. repeat split; try done. by left.
    + rewrite (weights_init_batchnorm m r Hc Hb).
      destruct (params m !! "weight") as [w|] eqn:Hw; [|repeat split; try done; by left].
      destruct (normal__returns w Py.one Py.fiftieth r) as (w' & -> & _).
      destruct (params m !! "bias"); repeat split; try done; right; eauto.
  - rewrite (weights_init_conv m r Hc).
    destruct (params m !! "weight") as [w|] eqn:Hw; [|repeat split; try done; by left].
    destruct (normal__returns w Py.zero Py.fiftieth r) as (w' & -> & _).
    repeat split; try done. right. eauto.
Qed.
End weights_init_extras.

(** ** sample_mask: edge cases and NaN *)

Module sample_mask_extras.
Import Torch Torch_facts F32_facts sample_mask_facts.

Lemma M_bind_eq {A B} (m : M A) (k : A -> M B) r a r' :
  m r = Ok (a, r') -> M_bind m k r = k a r'.
Proof. unfold M_bind. by intros ->. Qed.

Lemma randn_returns size d r :
  Forall (fun z => 0 <= z) size ->
  TorchRandom.randn size d r
    = Ok (Tensor (Z.to_nat <$> size)
            (torch_normal r <$> seq (torch_pos r) (numel (Z.to_nat <$> size)))
            (default cpu d),
          torch_advance (numel (Z.to_nat <$> size)) r).
Proof.
  intros Hs. unfold TorchRandom.randn.
  erewrite M_bind_eq; [|unfold M_lift; by rewrite dims_nonneg]. done.
Qed.

(** The noise tensors are created whenever no size is negative. *)
Lemma noise_masks_returns bs lvl device : forall sizes r,
  0 <= bs -> Forall (fun z => 0 <= z) sizes ->
  exists noise r1, noise_masks bs sizes lvl device r = Ok (noise, r1).
Proof.
  unfold noise_masks. intros sizes r Hbs Hs. revert r.
  induction Hs as [|size sizes Hsize _ IH]; intros r; simpl; [by eexists _, _|].
  erewrite M_bind_eq;
    [|erewrite M_bind_eq; [reflexivity | apply randn_returns; repeat constructor; lia]].
  destruct (IH (torch_advance (numel (Z.to_nat <$> [bs; 1; size; size])) r))
    as (noise & r1 & Hn).
  erewrite M_bind_eq; [|exact Hn]. by eexists _, _.
Qed.

(** X12: on a dataset that reports length 0 (or less), [sample_mask]
    with a positive batch size raises ValueError, from
    [np.random.randint], once the noise tensors have been created. *)
Theorem sample_mask_empty_dataset io bs sizes realdata lvl device r :
  0 < bs -> Forall (fun z => 0 <= z) sizes ->
  flower_dataset.__len__ realdata <= 0 ->
  sample_mask io bs sizes realdata lvl device r = Error ValueError.
Proof.
  intros Hbs Hs Hlen. unfold sample_mask.
  destruct (noise_masks_returns bs lvl device sizes r) as (noise & r1 & Hn); [lia | done |].
  rewrite (M_bind_eq _ _ _ _ _ Hn).
  destruct (Z.to_nat bs) as [|n] eqn:E; [lia|]. simpl.
  unfold M_bind at 1. unfold M_bind at 1. unfold NpRandom.randint.
  by destruct (Z.leb_spec (flower_dataset.__len__ realdata) 0); [|lia].
Qed.

Lemma sample_mask_empty_dataset_witness :
  0 < 2 /\ Forall (fun z => 0 <= z) [4; 8] /\
  flower_dataset.__len__ Examples.empty_dataset <= 0 /\
  sample_mask Examples.files 2 [4; 8] Examples.empty_dataset Py.tenth None Examples.generator
    = Error ValueError.
Proof.
  assert (H1 : 0 < 2) by lia.
  assert (H2 : Forall (fun z => 0 <= z) [4; 8]) by (repeat constructor; lia).
  assert (H3 : flower_dataset.__len__ Examples.empty_dataset <= 0) by (vm_compute; discriminate).
  do 3 (split; [assumption|]).
  exact (sample_mask_empty_dataset Examples.files 2 [4; 8] Examples.empty_dataset Py.tenth
           None Examples.generator H1 H2 H3).
Defined.

(** X13: with batch size 0 the dataset is not looked at and NumPy's
    generator is not used: the result is, for every size, the tensor of
    shape (0, 1, size, size), which has no element. *)
Theorem sample_mask_empty_batch io sizes realdata lvl device r :
  Forall (fun z => 0 <= z) sizes ->
  exists r',
    sample_mask io 0 sizes realdata lvl device r
      = Ok ((fun size => Tensor [0%nat; 1%nat; Z.to_nat size; Z.to_nat size] []
                           (default cpu device)) <$> sizes, r') /\
    numpy_pos r' = numpy_pos r /\ torch_pos r' = torch_pos r.
Proof.
  intros Hs. unfold sample_mask. change (Z.to_nat 0) with 0%nat. cbn [seq M_for].
  assert (H : exists r', noise_masks 0 sizes lvl device r
             = Ok ((fun size => Tensor [0%nat; 1%nat; Z.to_nat size; Z.to_nat size] []
                                  (default cpu device)) <$> sizes, r') /\
             numpy_pos r' = numpy_pos r /\ torch_pos r' = torch_pos r).
  { unfold noise_masks. revert r.
    induction Hs as [|size sizes Hsize _ IH]; intros r; simpl; [by eexists|].
    erewrite M_bind_eq;
      [|erewrite M_bind_eq; [reflexivity | apply randn_returns; repeat constructor; lia]].
    destruct (IH (torch_advance (numel (Z.to_nat <$> [0; 1; size; size])) r))
      as (r' & Hn & Hnp & Htp).
    erewrite M_bind_eq; [|exact Hn]. eexists. split; [reflexivity|].
    simpl in Hnp, Htp. split; [done | lia]. }
  destruct H as (r' & Hn & Hnp & Htp). exists r'.
  by rewrite (M_bind_eq _ _ _ _ _ Hn).
Qed.

Lemma sample_mask_empty_batch_witness :
  Forall (fun z => 0 <= z) [4; 8] /\
  exists r',
    sample_mask Examples.files 0 [4; 8] Examples.empty_dataset Py.tenth None
      Examples.generator
      = Ok ((fun size => Tensor [0%nat; 1%nat; Z.to_nat size; Z.to_nat size] []
                           (default cpu None)) <$> [4; 8], r') /\
    numpy_pos r' = numpy_pos Examples.generator /\
    torch_pos r' = torch_pos Examples.generator.
Proof.
  assert (H : Forall (fun z => 0 <= z) [4; 8]) by (repeat constructor; lia).
  split; [exact H|].
  exact (sample_mask_empty_batch Examples.files [4; 8] Examples.empty_dataset Py.tenth None
           Examples.generator H).
Defined.

Lemma mul_real_not_nan z l :
  F32.is_finite z = true -> F32.is_real l = true -> F32.is_nan (F32.mul z l) = false.
Proof.
  unfold F32.mul, F32.prec, F32.emax.
  destruct z as [sz|sz| |sz mz ez], l as [sl|sl| |sl ml el]; simpl; try done.
  intros _ _.
  pose proof (Rounding.binary_round_aux_not_nan (xorb sz sl) (Z.pos (mz * ml)) (ez + el)
                loc_Exact) as H.
  destruct (binary_round_aux _ _ _ _ _ _); try done. by destruct H.
Qed.

Lemma add_not_nan_r x d :
  F32.is_nan x = false -> F32.is_real d = true -> F32.is_nan (F32.add x d) = false.
Proof.
  unfold F32.add, F32.prec, F32.emax.
  destruct x as [sx|sx| |sx mx ex], d as [sd|sd| |sd md ed]; simpl; try done.
  - by destruct sx, sd.
  - intros _ _. set (r := binary_normalize _ _ _ _ _).
    pose proof (binary_normalize_not_nan
                  (cond_Zopp sx (Z.pos (shl_align mx ex (ex `min` ed)).1)
                   + cond_Zopp sd (Z.pos (shl_align md ed (ex `min` ed)).1))
                  (ex `min` ed) false) as H.
    fold r in H. by destruct r.
Qed.

(** What holds of every element of a tensor and is kept by adding an
    element of [other] still holds after [self[i,:,:,:] += other]. *)
Lemma iadd_select_Forall (P Q : spec_float -> Prop) mk i other mk' :
  (forall x d, P x -> Q d -> P (F32.add x d)) ->
  Forall P (data mk) -> Forall Q (data other) ->
  iadd_select mk i other = Ok mk' -> Forall P (data mk').
Proof.
  intros Hadd Hmk Hother H. unfold iadd_select in H.
  destruct (shape mk) as [|n rest]; [discriminate|].
  destruct (_ || _); [discriminate|].
  apply res_bind_Ok in H as (upd & Hupd & H). injection H as <-.
  unfold iadd, inplace in Hupd. destruct (negb _); [discriminate|].
  apply res_bind_Ok in Hupd as (xb & Hxb & Hupd). injection Hupd as <-.
  cbn [shape data dev] in *.
  apply Forall_app. split; [by apply Forall_take|].
  apply Forall_app. split; [|by apply Forall_drop].
  eapply (Forall_zip_with P Q); [done | | by eapply broadcast_to_Forall].
  unfold select. by apply Forall_take, Forall_drop.
Qed.

Lemma add_example_Forall (P Q : spec_float -> Prop) io realdata device i n :
  (forall x d, P x -> Q d -> P (F32.add x d)) ->
  (forall n item, flower_dataset.__getitem__ io realdata n = Ok item ->
                  Forall (fun t => Forall Q (data t)) item.2) ->
  forall masks k masks',
    Forall (fun mk => Forall P (data mk)) masks ->
    add_example io realdata device i n k masks = Ok masks' ->
    Forall (fun mk => Forall P (data mk)) masks'.
Proof.
  intros Hadd Hdata. induction masks as [|mask rest IH]; intros k masks' Hm H; simpl in H.
  - by injection H as <-.
  - apply res_bind_Ok in H as (item & Hitem & H).
    apply res_bind_Ok in H as (real & Hreal & H).
    apply res_bind_Ok in H as (mask' & Hmask & H).
    apply res_bind_Ok in H as (rest' & Hrest & H). injection H as <-.
    apply Forall_cons_1 in Hm as [Hm1 Hm]. constructor; [|by eapply IH].
    eapply (iadd_select_Forall P Q); [done | done | | done].
    assert (Hq : Forall Q (data real)).
    { eapply (Forall_forall (fun t => Forall Q (data t))); [by eapply Hdata|].
      by eapply index_elem. }
    by destruct device.
Qed.

Lemma batch_loop_Forall (P Q : spec_float -> Prop) io realdata device :
  (forall x d, P x -> Q d -> P (F32.add x d)) ->
  (forall n item, flower_dataset.__getitem__ io realdata n = Ok item ->
                  Forall (fun t => Forall Q (data t)) item.2) ->
  forall batch cur ra fin r',
    Forall (fun mk => Forall P (data mk)) cur ->
    M_for batch
      (fun i masks =>
         let! n := NpRandom.randint (flower_dataset.__len__ realdata) in
         M_lift (add_example io realdata device i n 0 masks))
      cur ra = Ok (fin, r') ->
    Forall (fun mk => Forall P (data mk)) fin.
Proof.
  intros Hadd Hdata. induction batch as [|i batch IH]; intros cur ra fin r' Hcur H; simpl in H.
  - by injection H as <- <-.
  - apply M_bind_Ok in H as (mid & rb & Hbody & H).
    apply M_bind_Ok in Hbody as (n & rn & Hn & Hbody).
    apply M_lift_Ok in Hbody as [Hex ->].
    eapply IH; [|done]. by eapply add_example_Forall.
Qed.

(** X14: when the masks of the dataset hold finite values only and the
    noise level is finite in binary32, no value of the masks that
    [sample_mask] returns is NaN. *)
Theorem sample_mask_no_nan io bs sizes realdata lvl device r masks r' :
  normal_finite r -> F32.is_real (F32.round lvl) = true ->
  (forall n item, flower_dataset.__getitem__ io realdata n = Ok item ->
     Forall (fun t => Forall (fun v => F32.is_real v = true) (data t)) item.2) ->
  sample_mask io bs sizes realdata lvl device r = Ok (masks, r') ->
  Forall (fun mk => Forall (fun v => F32.is_nan v = false) (data mk)) masks.
Proof.
  intros Hr Hlvl Hdata H. unfold sample_mask in H.
  apply M_bind_Ok in H as (noise & r1 & Hnoise & Hloop).
  eapply (batch_loop_Forall _ (fun v => F32.is_real v = true)); [| done | | done].
  - intros x d. apply add_not_nan_r.
  - pose proof (noise_masks_spec _ _ _ _ _ _ _ Hnoise) as (_ & _ & _ & Hlen & _ & Hk).
    apply Forall_lookup_2. intros k nk Hnk.
    destruct (lookup_lt_is_Some_2 sizes k) as [size Hsize];
      [rewrite <- Hlen; by eapply lookup_lt_Some|].
    destruct (Hk k size nk Hsize Hnk) as (_ & p & ->).
    apply Forall_fmap, Forall_fmap, Forall_forall. intros j _. simpl.
    by apply mul_real_not_nan.
Qed.

Lemma dataset_masks_real n item :
  flower_dataset.__getitem__ Examples.files Examples.dataset n = Ok item ->
  Forall (fun t => Forall (fun v => F32.is_real v = true) (data t)) item.2.
Proof.
  unfold flower_dataset.__getitem__. cbn [flower_dataset.in_memory Examples.dataset].
  intros H. apply res_bind_Ok in H as (img & _ & H).
  apply res_bind_Ok in H as (ms & Hms & H). injection H as <-. cbn [snd].
  apply index_elem in Hms. cbn [flower_dataset.mask Examples.dataset] in Hms.
  repeat (apply elem_of_cons in Hms as [->|Hms]); [| |by apply elem_of_nil in Hms];
    repeat constructor.
Qed.

Lemma sample_mask_no_nan_witness :
  exists masks r',
    normal_finite Examples.generator /\
    F32.is_real (F32.round Py.tenth) = true /\
    sample_mask Examples.files 2 [1; 2] Examples.dataset Py.tenth None Examples.generator
      = Ok (masks, r') /\
    Forall (fun mk => Forall (fun v => F32.is_nan v = false) (data mk)) masks.
Proof.
  assert (H1 : normal_finite Examples.generator)
    by (intros i; simpl; destruct (Nat.even i); reflexivity).
  do 2 eexists. split; [exact H1|]. split; [reflexivity|]. split; [lazy; reflexivity|].
  eapply (sample_mask_no_nan Examples.files 2 [1; 2] Examples.dataset Py.tenth None
            Examples.generator _ _ H1 eq_refl dataset_masks_real).
  lazy; reflexivity.
Defined.
End sample_mask_extras.

(** ** mask_pair_to_label: which masks count, shape, symmetry *)

Module mask_pair_extras.
Import Torch Torch_facts F32_facts mask_pair_claims.

Lemma mask_pair_last ord p1 p2 a b device :
  mask_pair_to_label ord (p1 ++ [a]) (p2 ++ [b]) device
  = mask_pair_to_label ord [a] [b] device.
Proof.
  unfold mask_pair_to_label.
  rewrite (index_last p1 a), (index_last p2 b).
  change (Py.index [a] (-1)) with (@Ok tensor exn a).
  by change (Py.index [b] (-1)) with (@Ok tensor exn b).
Qed.

(** X15: only the last mask of each list is compared; changing, adding
    or dropping the masks of the coarser resolutions before it changes
    neither the label nor the exception. *)
Theorem mask_pair_uses_last_only ord p1 p1' p2 p2' a b device :
  mask_pair_to_label ord (p1 ++ [a]) (p2 ++ [b]) device
  = mask_pair_to_label ord (p1' ++ [a]) (p2' ++ [b]) device.
Proof. by rewrite !mask_pair_last. Qed.

Lemma binop_shape f a b t :
  binop f a b = Ok t -> broadcast_shapes (shape a) (shape b) = Ok (shape t).
Proof.
  unfold binop. intros H.
  apply res_bind_Ok in H as (d & _ & H). apply res_bind_Ok in H as (s & Hs & H).
  apply res_bind_Ok in H as (xa & _ & H). apply res_bind_Ok in H as (xb & _ & H).
  by injection H as <-.
Qed.

(** X16: whenever [mask_pair_to_label] returns, the label is a vector
    with one entry for every element of the first dimension of the last
    mask; this covers the masks with empty rows, on which the call
    returns as well. *)
Theorem mask_pair_label_shape ord mask real_mask device label :
  mask_pair_to_label ord mask real_mask device = Ok label ->
  exists mask1 b rest,
    Py.index mask (-1) = Ok mask1 /\ shape mask1 = b :: rest /\ shape label = [b].
Proof.
  unfold mask_pair_to_label. intros H.
  apply res_bind_Ok in H as (mask1 & Hm1 & H). apply res_bind_Ok in H as (mask2 & Hm2 & H).
  apply res_bind_Ok in H as (b & Hb & H). apply res_bind_Ok in H as (lst & _ & H).
  apply res_bind_Ok in H as (diff & _ & H). apply res_bind_Ok in H as (rows & Hrows & H).
  apply res_bind_Ok in H as (mean & Hmean & H).
  unfold view_rows in Hrows. destruct (_ =? _)%nat; [discriminate|].
  destruct (negb _); [discriminate|]. injection Hrows as <-.
  unfold mean_dim1 in Hmean. cbn [shape] in Hmean. injection Hmean as <-.
  apply binop_shape in H. cbn [shape fill] in H.
  rewrite broadcast_shapes_self in H. injection H as <-.
  destruct (shape mask1) as [|b' rest] eqn:Hs; [discriminate|].
  exists mask1, b', rest. repeat split; try done.
  rewrite index_nat in Hb by lia. simpl in Hb. by injection Hb as <-.
Qed.

Lemma mask_pair_label_shape_witness :
  exists label,
    mask_pair_to_label Examples.left_to_right [Examples.pixels [2; 1; 0; 0]%nat]
      [Torch.neg (Examples.pixels [1; 0; 0]%nat)] None = Ok label /\
    exists mask1 b rest,
      Py.index [Examples.pixels [2; 1; 0; 0]%nat] (-1) = Ok mask1 /\
      shape mask1 = b :: rest /\ shape label = [b].
Proof.
  eexists. split; [reflexivity|].
  apply (mask_pair_label_shape Examples.left_to_right [Examples.pixels [2; 1; 0; 0]%nat]
           [Torch.neg (Examples.pixels [1; 0; 0]%nat)] None).
  reflexivity.
Defined.

(** *** Symmetry *)

Lemma abs_binary_round s s' m e :
  SFabs (binary_round 24 128 s m e) = SFabs (binary_round 24 128 s' m e).
Proof.
  unfold binary_round. destruct (shl_align _ _ _) as [mz ez].
  unfold binary_round_aux. destruct (shr_fexp _ _ _ _ _) as [mrs1 e1].
  destruct (shr_fexp _ _ _ _ _) as [mrs2 e2].
  destruct (shr_m mrs2); [done | by destruct (_ <=? _) | done].
Qed.

Lemma abs_binary_normalize_opp z e :
  SFabs (binary_normalize 24 128 (- z) e false) = SFabs (binary_normalize 24 128 z e false).
Proof. destruct z; simpl; [done | apply abs_binary_round..]. Qed.

(** The absolute difference does not depend on the order. *)
Lemma abs_sub_comm x y : F32.abs (F32.sub x y) = F32.abs (F32.sub y x).
Proof.
  unfold F32.abs, F32.sub, F32.prec, F32.emax.
  destruct x as [sx|sx| |sx mx ex], y as [sy|sy| |sy my ey]; simpl; try done;
    try (by destruct sx, sy).
  rewrite (Z.min_comm ey ex), <- abs_binary_normalize_opp. do 2 f_equal. lia.
Qed.

(** X17: for two last masks of one shape and one device the label does
    not depend on which list is passed first. *)
Theorem mask_pair_symmetric ord p1 p2 a b device :
  shape a = shape b -> dev a = dev b -> well_formed a -> well_formed b ->
  mask_pair_to_label ord (p1 ++ [a]) (p2 ++ [b]) device
    = mask_pair_to_label ord (p2 ++ [b]) (p1 ++ [a]) device.
Proof.
  intros Hs Hd Ha Hb. rewrite !mask_pair_last. unfold mask_pair_to_label.
  change (Py.index [a] (-1)) with (@Ok tensor exn a).
  change (Py.index [b] (-1)) with (@Ok tensor exn b). cbn [res_bind].
  rewrite <- Hs. destruct (Py.index (shape a) 0) as [n|]; [|done]. cbn [res_bind].
  destruct (Py.index (shape a) (-1)) as [lst|]; [|done]. cbn [res_bind].
  unfold Torch.sub at 1 3.
  rewrite (binop_same_shape F32.sub a b), (binop_same_shape F32.sub b a) by done.
  cbn [res_bind].
  assert (Habs : Torch.abs (Tensor (shape a) (zip_with F32.sub (data a) (data b)) (dev a))
                 = Torch.abs (Tensor (shape b) (zip_with F32.sub (data b) (data a)) (dev b))).
  { unfold Torch.abs, Torch.map. cbn [shape data dev]. rewrite <- Hs, <- Hd. f_equal.
    generalize (data b). induction (data a) as [|x l IH]; intros [|y l']; simpl; try done.
    by rewrite abs_sub_comm, IH. }
  by rewrite Habs.
Qed.

Lemma mask_pair_symmetric_witness :
  shape (Examples.pixels [2; 1; 2; 2]%nat) = shape (Torch.neg (Examples.pixels [2; 1; 2; 2]%nat)) /\
  dev (Examples.pixels [2; 1; 2; 2]%nat) = dev (Torch.neg (Examples.pixels [2; 1; 2; 2]%nat)) /\
  well_formed (Examples.pixels [2; 1; 2; 2]%nat) /\
  well_formed (Torch.neg (Examples.pixels [2; 1; 2; 2]%nat)) /\
  mask_pair_to_label Examples.left_to_right ([] ++ [Examples.pixels [2; 1; 2; 2]%nat])
    ([] ++ [Torch.neg (Examples.pixels [2; 1; 2; 2]%nat)]) None
  = mask_pair_to_label Examples.left_to_right
      ([] ++ [Torch.neg (Examples.pixels [2; 1; 2; 2]%nat)])
      ([] ++ [Examples.pixels [2; 1; 2; 2]%nat]) None.
Proof.
  do 4 (split; [reflexivity|]).
  exact (mask_pair_symmetric Examples.left_to_right [] [] (Examples.pixels [2; 1; 2; 2]%nat)
           (Torch.neg (Examples.pixels [2; 1; 2; 2]%nat)) None eq_refl eq_refl eq_refl eq_refl).
Defined.
End mask_pair_extras.

(** ** get_label: sizes, values and label noise *)

Module get_label_extras.
Import Torch Torch_facts sample_mask_facts sample_mask_extras.

Lemma rand_returns size d r :
  Forall (fun z => 0 <= z) size ->
  TorchRandom.rand size d r
    = Ok (Tensor (Z.to_nat <$> size)
            (torch_uniform r <$> seq (torch_pos r) (numel (Z.to_nat <$> size)))
            (default cpu d),
          torch_advance (numel (Z.to_nat <$> size)) r).
Proof.
  intros Hs. unfold TorchRandom.rand.
  erewrite M_bind_eq; [|unfold M_lift; by rewrite dims_nonneg]. done.
Qed.

Lemma inplace_vectors f n xs ys d :
  length xs = n -> length ys = n ->
  inplace f (Tensor [n] xs d) (Tensor [n] ys d) = Ok (Tensor [n] (zip_with f xs ys) d).
Proof.
  intros Hx Hy. unfold inplace. cbn [shape data dev].
  rewrite bool_decide_true by done. cbn [orb negb].
  assert (Hwf : well_formed (Tensor [n] ys d)) by (unfold well_formed; cbn; lia).
  pose proof (broadcast_to_self _ Hwf) as Hb. cbn [shape data] in Hb. by rewrite Hb.
Qed.

(** The soft label of one entry: [real] moved towards the other class by
    the uniform variate [u] times [soft]. *)
Lemma zip_with_fmap_replicate {A B B' C} (f : A -> B -> C) (g : B' -> B) (a : A) n
    (l : list B') :
  length l = n -> zip_with f (replicate n a) (g <$> l) = (fun x => f a (g x)) <$> l.
Proof. intros <-. induction l as [|y l IH]; simpl; [done | by f_equal]. Qed.

Lemma full_float size x device :
  0 <= size -> overflows x = false ->
  Torch.full [size] (Py.Float x) device
    = Ok (Float32 (Tensor [Z.to_nat size] (replicate (Z.to_nat size) (F32.round x))
                     (default cpu device))).
Proof.
  intros Hsize Hx. unfold Torch.full. rewrite dims_nonneg by (repeat constructor; lia).
  cbn [res_bind fmap list_fmap]. rewrite Hx. unfold fill. cbn [numel foldr].
  by rewrite Nat.mul_1_r.
Qed.

Lemma get_label_float size x soft noise_level device r :
  0 <= size -> overflows x = false ->
  get_label size (Py.Float x) soft false noise_level device r
    = Ok (Tensor [Z.to_nat size]
            ((fun u => (if Py.eqb x Py.one then F32.sub else F32.add)
                         (F32.round x) (F32.mul u (F32.round soft)))
               <$> (torch_uniform r <$> seq (torch_pos r) (Z.to_nat size)))
            (default cpu device),
          torch_advance (Z.to_nat size) r).
Proof.
  intros Hsize Hx. unfold get_label.
  erewrite M_bind_eq; [|unfold M_lift; by rewrite full_float].
  erewrite M_bind_eq; [|apply rand_returns; repeat constructor; lia].
  cbn [fmap list_fmap numel foldr]. rewrite Nat.mul_1_r.
  set (us := torch_uniform r <$> seq (torch_pos r) (Z.to_nat size)).
  assert (Hus : length us = Z.to_nat size) by (unfold us; by rewrite length_fmap, length_seq).
  change (Py.eq_int (Py.Float x) 1) with (Py.eqb x Py.one).
  destruct (Py.eqb x Py.one).
  all: erewrite M_bind_eq;
    [|unfold M_lift, isub_filled, iadd_filled, inplace_filled, mul_scalar, map;
      cbn [shape data dev];
      rewrite inplace_vectors by (by rewrite ?length_replicate, ?length_fmap);
      reflexivity].
  all: unfold M_ret; do 2 f_equal.
  all: by rewrite (zip_with_fmap_replicate _ _ _ _ us Hus).
Qed.

Lemma get_label_negative size real soft noise noise_level device r :
  size < 0 -> get_label size real soft noise noise_level device r = Error RuntimeError.
Proof.
  intros Hsize. unfold get_label, M_bind, M_lift, Torch.full, dims. simpl.
  by destruct (Z.ltb_spec size 0); [|lia].
Qed.

(** The label is rejected before or at the in-place update. *)
Lemma get_label_int size z soft noise noise_level device r :
  get_label size (Py.Int z) soft noise noise_level device r = Error RuntimeError.
Proof.
  destruct (Z.ltb_spec size 0) as [Hneg|Hpos]; [by apply get_label_negative|].
  unfold get_label.
  assert (Hfull : Torch.full [size] (Py.Int z) device
                  = Ok (Int64 [Z.to_nat size] (replicate (Z.to_nat size) z)
                          (default cpu device))).
  { unfold Torch.full. rewrite dims_nonneg by (repeat constructor; lia).
    cbn [res_bind fmap list_fmap numel foldr]. by rewrite Nat.mul_1_r. }
  erewrite M_bind_eq; [|unfold M_lift; by rewrite Hfull].
  erewrite M_bind_eq; [|apply rand_returns; repeat constructor; lia].
  unfold M_bind, M_lift, isub_filled, iadd_filled, inplace_filled.
  by destruct (Py.eq_int _ _).
Qed.

Lemma get_label_overflow size x soft noise noise_level device r :
  overflows x = true ->
  get_label size (Py.Float x) soft noise noise_level device r = Error RuntimeError.
Proof.
  intros Hx. destruct (Z.ltb_spec size 0) as [Hneg|Hpos]; [by apply get_label_negative|].
  unfold get_label, M_bind, M_lift, Torch.full.
  rewrite dims_nonneg by (repeat constructor; lia). cbn [res_bind]. by rewrite Hx.
Qed.

(** X18: without label noise, for a size that is not negative and a
    float [real] that float32 can hold, [get_label] returns a vector of
    [size] entries on the requested device: entry [i] is [real] minus
    (for [real == 1]) or plus (otherwise) the [i]-th uniform variate
    times [soft]; exactly [size] variates are drawn and the noise level
    is never looked at. *)
Theorem get_label_without_noise size x soft noise_level device r :
  0 <= size -> overflows x = false ->
  get_label size (Py.Float x) soft false noise_level device r
    = Ok (Tensor [Z.to_nat size]
            ((fun u => (if Py.eqb x Py.one then F32.sub else F32.add)
                         (F32.round x) (F32.mul u (F32.round soft)))
               <$> (torch_uniform r <$> seq (torch_pos r) (Z.to_nat size)))
            (default cpu device),
          torch_advance (Z.to_nat size) r).
Proof. apply get_label_float. Qed.

Lemma get_label_without_noise_witness :
  0 <= 3 /\ overflows Py.one = false /\
  get_label 3 (Py.Float Py.one) Py.tenth false S754_nan None Examples.generator
    = Ok (Tensor [Z.to_nat 3]
            ((fun u => (if Py.eqb Py.one Py.one then F32.sub else F32.add)
                         (F32.round Py.one) (F32.mul u (F32.round Py.tenth)))
               <$> (torch_uniform Examples.generator
                      <$> seq (torch_pos Examples.generator) (Z.to_nat 3)))
            (default cpu None),
          torch_advance (Z.to_nat 3) Examples.generator).
Proof.
  assert (H : 0 <= 3) by lia.
  assert (H' : overflows Py.one = false) by reflexivity.
  do 2 (split; [assumption|]).
  exact (get_label_without_noise 3 Py.one Py.tenth S754_nan None Examples.generator H H').
Defined.

(** X19: a negative size raises RuntimeError, with or without label
    noise, and whatever the other arguments are. *)
Theorem get_label_negative_size size real soft noise noise_level device r :
  size < 0 ->
  get_label size real soft noise noise_level device r = Error RuntimeError.
Proof. apply get_label_negative. Qed.

Lemma get_label_negative_size_witness :
  -1 < 0 /\
  get_label (-1) (Py.Float Py.one) Py.tenth true Py.tenth None Examples.generator
    = Error RuntimeError.
Proof.
  assert (H : -1 < 0) by lia.
  split; [assumption|].
  exact (get_label_negative_size (-1) (Py.Float Py.one) Py.tenth true Py.tenth None
           Examples.generator H).
Defined.

(** X24: with an [int] for [real] the call raises RuntimeError for every
    size, with or without label noise: [torch.full] makes an int64
    tensor, which cannot take the float32 update. *)
Theorem get_label_int_real size z soft noise noise_level device r :
  get_label size (Py.Int z) soft noise noise_level device r = Error RuntimeError.
Proof. apply get_label_int. Qed.

(** X25: a finite [real] beyond the float32 range raises RuntimeError; it
    is not rounded to an infinity. *)
Theorem get_label_real_too_large size x soft noise noise_level device r :
  overflows x = true ->
  get_label size (Py.Float x) soft noise noise_level device r = Error RuntimeError.
Proof. apply get_label_overflow. Qed.

Lemma get_label_real_too_large_witness :
  overflows (Py.of_Z (10 ^ 39)) = true /\
  get_label 3 (Py.Float (Py.of_Z (10 ^ 39))) Py.tenth false Py.tenth None Examples.generator
    = Error RuntimeError.
Proof.
  assert (H : overflows (Py.of_Z (10 ^ 39)) = true) by reflexivity.
  split; [assumption|].
  exact (get_label_real_too_large 3 (Py.of_Z (10 ^ 39)) Py.tenth false Py.tenth None
           Examples.generator H).
Defined.

(** *** Label noise *)

Lemma gather_lookups (t : tensor) idx old :
  gather t idx = Ok old ->
  shape old = [length idx] /\ Forall2 (fun j x => data t !! j = Some x) idx (data old).
Proof.
  unfold gather. intros H. apply res_bind_Ok in H as (xs & Hxs & H). injection H as <-.
  split; [done|]. cbn [data]. revert xs Hxs.
  induction idx as [|j idx IH]; intros xs H; simpl in H.
  - injection H as <-. constructor.
  - apply res_bind_Ok in H as (x & Hx & H). apply res_bind_Ok in H as (xs' & Hxs' & H).
    injection H as <-. constructor; [|by apply IH].
    by destruct (data t !! j); [injection Hx as -> |].
Qed.

Lemma scatter_lookup (g : spec_float -> spec_float) (l0 : list spec_float) idx xs :
  Forall2 (fun j x => l0 !! j = Some x) idx xs ->
  forall acc j, length acc = length l0 ->
    fold_left (fun acc jx => <[jx.1 := jx.2]> acc) (zip idx (g <$> xs)) acc !! j
      = if decide (j ∈ idx) then g <$> (l0 !! j) else acc !! j.
Proof.
  induction 1 as [|j0 x0 idx xs Hx _ IH]; intros acc j Hlen; simpl.
  - destruct (decide (j ∈ [])) as [Hin|_]; [by apply elem_of_nil in Hin | done].
  - rewrite IH by (by rewrite length_insert).
    destruct (decide (j ∈ idx)) as [Hin|Hnin].
    + rewrite decide_True; [done | by right].
    + destruct (decide (j = j0)) as [->|Hne].
      * rewrite decide_True by left. rewrite list_lookup_insert_eq; [by rewrite Hx|].
        rewrite Hlen. by eapply lookup_lt_Some.
      * rewrite decide_False by (by intros [?|?]%elem_of_cons).
        by rewrite list_lookup_insert_ne.
Qed.

(** X20: with label noise, whenever [get_label] returns, the label is
    the label without noise in which the entries at the first
    [int(size * noise_level)] positions of the permutation have been
    replaced by one minus themselves; every other entry is as it was. *)
Theorem get_label_noise_flips size real soft noise_level device r noisy r' :
  get_label size real soft true noise_level device r = Ok (noisy, r') ->
  exists label r1 count,
    get_label size real soft false noise_level device r = Ok (label, r1) /\
    Py.int (Py.mul (Py.of_Z (Z.of_nat (Z.to_nat size))) noise_level) = Ok count /\
    shape noisy = shape label /\ dev noisy = dev label /\
    forall j,
      data noisy !! j
      = if decide (j ∈ Py.slice_to (torch_perm r1 (torch_pos r1) (Z.to_nat size)) count)
        then F32.sub F32.one <$> (data label !! j)
        else data label !! j.
Proof.
  intros H.
  destruct (Z.ltb_spec size 0) as [Hneg|Hpos].
  { by rewrite get_label_negative in H. }
  destruct real as [z|x]; [by rewrite get_label_int in H|].
  destruct (overflows x) eqn:Hx; [by rewrite get_label_overflow in H|].
  pose proof (get_label_float size x soft noise_level device r Hpos Hx) as Hp.
  unfold get_label in H, Hp.
  apply M_bind_Ok in H as (l0 & ra & H0 & H). rewrite (M_bind_eq _ _ _ _ _ H0) in Hp.
  apply M_bind_Ok in H as (u & rb & Hu & H). rewrite (M_bind_eq _ _ _ _ _ Hu) in Hp.
  apply M_bind_Ok in H as (label & rc & Hl & H). rewrite (M_bind_eq _ _ _ _ _ Hl) in Hp.
  injection Hp as Hlabel Hrc.
  apply M_bind_Ok in H as (size0 & rd & Hsize0 & H). apply M_lift_Ok in Hsize0 as [Hsize0 ->].
  apply M_bind_Ok in H as (perm & re & Hperm & H). injection Hperm as <- <-.
  apply M_bind_Ok in H as (count & rf & Hcount & H). apply M_lift_Ok in Hcount as [Hcount ->].
  apply M_bind_Ok in H as (old & rg & Hold & H). apply M_lift_Ok in Hold as [Hold ->].
  injection H as <- <-.
  rewrite Hlabel in Hsize0. cbn [shape] in Hsize0.
  rewrite index_nat in Hsize0 by lia. simpl in Hsize0. injection Hsize0 as <-.
  exists label, rc, count. split.
  { unfold get_label. rewrite (M_bind_eq _ _ _ _ _ H0), (M_bind_eq _ _ _ _ _ Hu).
    by rewrite (M_bind_eq _ _ _ _ _ Hl). }
  split; [done|]. split; [done|]. split; [done|].
  intros j. apply gather_lookups in Hold as [_ Hold].
  unfold scatter, rsub_scalar, map. cbn [data].
  by apply (scatter_lookup (F32.sub (F32.round Py.one)) (data label)).
Qed.

Lemma get_label_noise_flips_witness :
  exists noisy r',
    get_label 10 (Py.Float Py.zero) Py.tenth true Py.tenth None Examples.generator
      = Ok (noisy, r') /\
    exists label r1 count,
      get_label 10 (Py.Float Py.zero) Py.tenth false Py.tenth None Examples.generator
        = Ok (label, r1) /\
      Py.int (Py.mul (Py.of_Z (Z.of_nat (Z.to_nat 10))) Py.tenth) = Ok count /\
      shape noisy = shape label /\ dev noisy = dev label /\
      forall j,
        data noisy !! j
        = if decide (j ∈ Py.slice_to (torch_perm r1 (torch_pos r1) (Z.to_nat 10)) count)
          then F32.sub F32.one <$> (data label !! j)
          else data label !! j.
Proof.
  do 2 eexists. split; [lazy; reflexivity|].
  eapply (get_label_noise_flips 10 (Py.Float Py.zero) Py.tenth Py.tenth None
            Examples.generator).
  lazy; reflexivity.
Defined.
End get_label_extras.

(** ** noise_input: any noise level *)

Module noise_input_extras.
Import Torch Torch_facts F32_facts label_claims sample_mask_extras.

(** X21: for a noise level other than 0 and data whose storage matches
    its shape, [noise_input] returns whenever [data] is, after the move
    to [device], on the device the noise is created on.  The result has
    the shape of [data], lives on that device, holds for every element
    the variate times the level plus the element (clamped when [clip] is
    set), and one normal variate per element has been drawn. *)
Theorem noise_input_nonzero x lvl device clip r :
  Py.eqb lvl Py.zero = false -> well_formed x -> (device = None -> dev x = cpu) ->
  noise_input x lvl device clip r
    = Ok (Tensor (shape x)
            ((fun v => if clip then clamp1 (F32.round (Py.of_Z (-1))) (F32.round (Py.of_Z 1)) v else v)
               <$> zip_with (fun z v => F32.add (F32.mul z (F32.round lvl)) v)
                              (torch_normal r <$> seq (torch_pos r) (numel (shape x)))
                              (data x))
            (default cpu device),
          torch_advance (numel (shape x)) r).
Proof.
  intros Hl Hwf Hdev. unfold noise_input. rewrite Hl.
  set (x' := Torch.to x device).
  assert (Hwf' : well_formed x') by (by destruct device).
  assert (Hs : shape x = shape x') by (by destruct device).
  assert (Hx : data x = data x') by (by destruct device).
  assert (Hd : default cpu device = dev x')
    by (unfold x'; destruct device; [done | simpl; by rewrite Hdev]).
  unfold M_bind, TorchRandom.draw, M_lift, iadd, inplace, mul_scalar, map. cbn [shape dev data].
  rewrite bool_decide_true by done. cbn [orb negb].
  rewrite Hs, broadcast_to_self by done.
  cbn [res_bind M_ret]. rewrite <- Hx, <- Hs. do 2 f_equal.
  assert (Hz : forall (zs vs : list spec_float),
             zip_with F32.add ((fun z => F32.mul z (F32.round lvl)) <$> zs) vs
             = zip_with (fun z v => F32.add (F32.mul z (F32.round lvl)) v) zs vs).
  { induction zs as [|z zs IH]; intros [|v vs]; simpl; [done..|]. by rewrite IH. }
  destruct clip; unfold clamp, map; cbn [shape data dev]; rewrite Hz; [done|].
  by rewrite list_fmap_id.
Qed.

Lemma noise_input_nonzero_witness :
  Py.eqb Py.fiftieth Py.zero = false /\
  well_formed (Tensor [2%nat] [F32.one; F32.zero] (cuda 0)) /\
  (Some (cuda 1) = None -> dev (Tensor [2%nat] [F32.one; F32.zero] (cuda 0)) = cpu) /\
  noise_input (Tensor [2%nat] [F32.one; F32.zero] (cuda 0)) Py.fiftieth (Some (cuda 1)) true
      Examples.generator
    = Ok (Tensor [2%nat]
            ((fun v => if true then clamp1 (F32.round (Py.of_Z (-1))) (F32.round (Py.of_Z 1)) v else v)
               <$> zip_with (fun z v => F32.add (F32.mul z (F32.round Py.fiftieth)) v)
                              (torch_normal Examples.generator
                                 <$> seq (torch_pos Examples.generator) 2)
                              [F32.one; F32.zero])
            (cuda 1),
          torch_advance 2 Examples.generator).
Proof.
  assert (H1 : Py.eqb Py.fiftieth Py.zero = false) by reflexivity.
  assert (H2 : well_formed (Tensor [2%nat] [F32.one; F32.zero] (cuda 0))) by reflexivity.
  assert (H3 : Some (cuda 1) = None -> dev (Tensor [2%nat] [F32.one; F32.zero] (cuda 0)) = cpu)
    by discriminate.
  do 3 (split; [assumption|]).
  exact (noise_input_nonzero (Tensor [2%nat] [F32.one; F32.zero] (cuda 0)) Py.fiftieth
           (Some (cuda 1)) true Examples.generator H1 H2 H3).
Defined.

(** X22: for a noise level other than 0, data that is not on the CPU and
    no device given, the noise is created on the CPU and adding [data]
    to it raises RuntimeError. *)
Theorem noise_input_device_mismatch x lvl clip r :
  Py.eqb lvl Py.zero = false -> dev x <> cpu ->
  noise_input x lvl None clip r = Error RuntimeError.
Proof.
  intros Hl Hdev. unfold noise_input. rewrite Hl.
  unfold M_bind, TorchRandom.draw, M_lift, iadd, inplace, mul_scalar, map, cpu_scalar.
  cbn [shape dev data default Torch.to].
  rewrite (bool_decide_false (cpu = dev x)) by congruence.
  rewrite (bool_decide_false (dev x = cpu)) by done.
  by rewrite andb_false_r.
Qed.

Lemma noise_input_device_mismatch_witness :
  Py.eqb Py.tenth Py.zero = false /\
  dev (Tensor [1%nat] [F32.one] (cuda 0)) <> cpu /\
  noise_input (Tensor [1%nat] [F32.one] (cuda 0)) Py.tenth None false Examples.generator
    = Error RuntimeError.
Proof.
  assert (H1 : Py.eqb Py.tenth Py.zero = false) by reflexivity.
  assert (H2 : dev (Tensor [1%nat] [F32.one] (cuda 0)) <> cpu) by discriminate.
  do 2 (split; [assumption|]).
  exact (noise_input_device_mismatch (Tensor [1%nat] [F32.one] (cuda 0)) Py.tenth false
           Examples.generator H1 H2).
Defined.

Lemma noise_input_data_any x lvl device clip r y r' :
  Py.eqb lvl Py.zero = false ->
  noise_input x lvl device clip r = Ok (y, r') ->
  exists xb,
    broadcast_to (Torch.to x device) (shape x) = Ok xb /\
    data y = (fun v => if clip then clamp1 (F32.round (Py.of_Z (-1))) (F32.round (Py.of_Z 1)) v else v)
               <$> zip_with F32.add
                              ((fun z => F32.mul z (F32.round lvl))
                                 <$> (torch_normal r <$> seq (torch_pos r) (numel (shape x))))
                              xb.
Proof.
  intros Hl. unfold noise_input. rewrite Hl.
  intros H. apply M_bind_Ok in H as (z & r1 & Hz & H).
  unfold TorchRandom.draw in Hz. injection Hz as <- <-.
  apply M_bind_Ok in H as (t & r2 & Ht & H).
  apply M_lift_Ok in Ht as [Ht ->]. injection H as <- <-.
  unfold iadd, inplace in Ht. destruct (negb _); [discriminate|].
  apply res_bind_Ok in Ht as (xb & Hxb & Ht). injection Ht as <-.
  exists xb. split; [done|]. destruct clip; [done|].
  cbn [data mul_scalar map]. by rewrite list_fmap_id.
Qed.

(** X23: for every noise level that is a finite number other than 0: when
    [data] holds finite values only, the tensor [noise_input] returns
    holds no NaN, and with clipping every value lies in the interval
    from -1 to 1. *)
Theorem noise_input_finite_data x lvl device clip r y r' :
  Py.eqb lvl Py.zero = false -> F32.is_real (F32.round lvl) = true ->
  normal_finite r ->
  Forall (fun v => F32.is_real v = true) (data x) ->
  noise_input x lvl device clip r = Ok (y, r') ->
  Forall (fun v => F32.is_nan v = false) (data y) /\
  (clip = true ->
   Forall (fun v => F32.in_range (F32.neg F32.one) F32.one v = true) (data y)).
Proof.
  intros Hl Hlvl Hr Hx H. apply (noise_input_data_any _ _ _ _ _ _ _ Hl) in H as (xb & Hxb & ->).
  assert (Hsum : Forall (fun v => F32.is_nan v = false)
                   (zip_with F32.add
                      ((fun z => F32.mul z (F32.round lvl))
                         <$> (torch_normal r <$> seq (torch_pos r) (numel (shape x)))) xb)).
  { eapply (Forall_zip_with (fun v => F32.is_nan v = false) (fun v => F32.is_real v = true)).
    - intros v d Hv Hd. simpl. by apply add_not_nan_r.
    - apply Forall_fmap, Forall_fmap, Forall_forall. intros i _. simpl.
      apply mul_real_not_nan; [apply Hr | done].
    - eapply broadcast_to_Forall; [|done]. by destruct device. }
  split.
  - apply Forall_fmap. eapply Forall_impl; [exact Hsum|].
    intros v Hv. simpl. destruct clip; [|done].
    pose proof (clamp1_in_range v Hv) as Hc.
    destruct (clamp1 _ _ v); try done.
  - intros ->. apply Forall_fmap. eapply Forall_impl; [exact Hsum|].
    intros v Hv. simpl. by apply clamp1_in_range.
Qed.

Lemma noise_input_finite_data_witness :
  exists y r',
    Py.eqb (Py.of_Z 1000) Py.zero = false /\
    F32.is_real (F32.round (Py.of_Z 1000)) = true /\
    normal_finite Examples.generator /\
    Forall (fun v => F32.is_real v = true) [F32.two; F32.one] /\
    noise_input (Tensor [2%nat] [F32.two; F32.one] cpu) (Py.of_Z 1000) None true
      Examples.generator = Ok (y, r') /\
    Forall (fun v => F32.is_nan v = false) (data y) /\
    (true = true ->
     Forall (fun v => F32.in_range (F32.neg F32.one) F32.one v = true) (data y)).
Proof.
  do 2 eexists.
  split; [reflexivity|].
  split; [reflexivity|].
  split; [intros i; simpl; destruct (Nat.even i); reflexivity|].
  split; [repeat constructor|].
  split; [lazy; reflexivity|].
  eapply (noise_input_finite_data (Tensor [2%nat] [F32.two; F32.one] cpu) (Py.of_Z 1000) None
            true Examples.generator).
  - reflexivity.
  - reflexivity.
  - intros i; simpl; destruct (Nat.even i); reflexivity.
  - repeat constructor.
  - lazy; reflexivity.
Defined.
End noise_input_extras.
